(** * beartype: origin resolution, object utilities and the exception taxonomy

    A shallow embedding of

    - [beartype/_util/utilobject.py]       (object testers and getters),
    - [beartype/_util/hint/utilhintget.py] (origin types of type hints),
    - [beartype/roar/_roarexc.py]          (the exception class hierarchy),

    over a small model of the part of the Python object model these files
    rely on: class objects with their bases, metaclass and namespace, the
    [type], [isinstance] and [issubclass] builtins, and exceptions.  The
    checking engine that [test_beartype.py] exercises is modelled from its
    specification. *)

From Stdlib Require Import ZArith List String Ascii Bool Lia DecimalString.
Import ListNotations.
Local Open Scope string_scope.
Local Open Scope list_scope.

Set Warnings "-register-all".

(* ====================================================================== *)
(** * Python objects *)
(* ====================================================================== *)

(** A class object, as a [class] statement creates it: [__name__], the module
    that defined it, the first line of its docstring, [__bases__], the
    [metaclass=] keyword when the statement has one, and the names bound by
    the class body.  A bound name is an ordinary attribute (a plain function
    or a value), a function decorated with [abc.abstractmethod], or a special
    method (of a metaclass) whose whole body is [return b] or
    [raise exc(...)]. *)
Inductive pyclass : Type :=
| MkClass (name : string) (module : string) (doc : string)
          (bases : list pyclass) (metaclass : option pyclass)
          (body : list (string * member))
with member : Type :=
| Def
| AbstractDef
| DefReturning (b : bool)
| DefRaising (exc : pyclass).

(** The objects the modelled functions are applied to.  [PyInstance c state]
    is an instance of the user-visible class [c]; [state] is the state its
    built-in base keeps (the [args] of an exception, the items of an instance
    of a [list] subclass).  Class objects, metaclasses included, are always
    [PyClass] values. *)
Inductive pyobj : Type :=
| PyNone
| PyInt (z : Z)
| PyStr (s : string)
| PyList (items : list pyobj)
| PyTuple (items : list pyobj)
| PyClass (c : pyclass)
| PyInstance (c : pyclass) (state : list pyobj).

(** The result of a call: a returned value or a raised exception instance. *)
Inductive outcome (A : Type) : Type :=
| Return (a : A)
| Raise (exc : pyobj).
Arguments Return {A} a.
Arguments Raise {A} exc.

Definition cls_name (c : pyclass) : string :=
  match c with MkClass n _ _ _ _ _ => n end.
Definition cls_module (c : pyclass) : string :=
  match c with MkClass _ m _ _ _ _ => m end.
Definition cls_doc (c : pyclass) : string :=
  match c with MkClass _ _ d _ _ _ => d end.
Definition cls_bases (c : pyclass) : list pyclass :=
  match c with MkClass _ _ _ bs _ _ => bs end.
Definition cls_metaclass_keyword (c : pyclass) : option pyclass :=
  match c with MkClass _ _ _ _ m _ => m end.
Definition cls_body (c : pyclass) : list (string * member) :=
  match c with MkClass _ _ _ _ _ b => b end.

(** Identity of class objects ([is]): two class objects are the same when
    they were created by the same class statement. *)
Fixpoint pyclass_eqb (a b : pyclass) {struct a} : bool :=
  match a, b with
  | MkClass n1 mo1 d1 bs1 m1 body1, MkClass n2 mo2 d2 bs2 m2 body2 =>
      String.eqb n1 n2 && String.eqb mo1 mo2 && String.eqb d1 d2
      && (fix bases_eqb (xs ys : list pyclass) {struct xs} : bool :=
            match xs, ys with
            | [], [] => true
            | x :: xs', y :: ys' => pyclass_eqb x y && bases_eqb xs' ys'
            | _, _ => false
            end) bs1 bs2
      && match m1, m2 with
         | None, None => true
         | Some x, Some y => pyclass_eqb x y
         | _, _ => false
         end
      && (fix body_eqb (xs ys : list (string * member)) {struct xs} : bool :=
            match xs, ys with
            | [], [] => true
            | (k1, v1) :: xs', (k2, v2) :: ys' =>
                String.eqb k1 k2 && member_eqb v1 v2 && body_eqb xs' ys'
            | _, _ => false
            end) body1 body2
  end
with member_eqb (a b : member) {struct a} : bool :=
  match a, b with
  | Def, Def => true
  | AbstractDef, AbstractDef => true
  | DefReturning x, DefReturning y => Bool.eqb x y
  | DefRaising x, DefRaising y => pyclass_eqb x y
  | _, _ => false
  end.

Definition mem_class (c : pyclass) (l : list pyclass) : bool :=
  existsb (pyclass_eqb c) l.

(** Duplicates removed, the last occurrence kept. *)
Fixpoint dedup_last (l : list pyclass) : list pyclass :=
  match l with
  | [] => []
  | x :: rest => if mem_class x rest then dedup_last rest
                 else x :: dedup_last rest
  end.

(** [cls.__mro__]: the class, then its ancestors.  For the single-inheritance
    chains these sources declare this is Python's linearisation; with several
    bases it lists the same classes (membership is all [issubclass] uses). *)
Fixpoint mro (c : pyclass) : list pyclass :=
  match c with
  | MkClass _ _ _ bases _ _ => c :: dedup_last (List.concat (map mro bases))
  end.

(** [cls in sub.__mro__]. *)
Definition in_mro (cls sub : pyclass) : bool := mem_class cls (mro sub).

Definition lookup_body (name : string) (body : list (string * member))
  : option member :=
  match find (fun kv => String.eqb name (fst kv)) body with
  | Some kv => Some (snd kv)
  | None => None
  end.

(** Attribute lookup on a class: the first class of the MRO whose body binds
    [name], with what it binds it to. *)
Fixpoint lookup_in (name : string) (classes : list pyclass)
  : option (pyclass * member) :=
  match classes with
  | [] => None
  | k :: rest =>
      match lookup_body name (cls_body k) with
      | Some m => Some (k, m)
      | None => lookup_in name rest
      end
  end.

Definition class_getattr (c : pyclass) (name : string)
  : option (pyclass * member) :=
  lookup_in name (mro c).

(* ---------------------------------------------------------------------- *)
(** ** Built-in classes *)
(* ---------------------------------------------------------------------- *)

Definition py_object : pyclass :=
  MkClass "object" "builtins" "The base class of the class hierarchy." [] None
    [("__init__", Def); ("__new__", Def); ("__repr__", Def)].

Definition py_type : pyclass :=
  MkClass "type" "builtins" "type(object) -> the object's type" [py_object] None
    [("__call__", Def); ("__instancecheck__", Def); ("__subclasscheck__", Def)].

Definition py_NoneType : pyclass :=
  MkClass "NoneType" "builtins" "" [py_object] None [].
Definition py_int : pyclass :=
  MkClass "int" "builtins" "" [py_object] None [].
Definition py_str : pyclass :=
  MkClass "str" "builtins" "" [py_object] None [].
Definition py_list : pyclass :=
  MkClass "list" "builtins" "" [py_object] None [].
Definition py_tuple : pyclass :=
  MkClass "tuple" "builtins" "" [py_object] None [].

Definition py_BaseException : pyclass :=
  MkClass "BaseException" "builtins" "Common base class for all exceptions"
    [py_object] None [("__init__", Def); ("__new__", Def)].
Definition py_Exception : pyclass :=
  MkClass "Exception" "builtins"
    "Common base class for all non-exit exceptions." [py_BaseException] None [].
Definition py_TypeError : pyclass :=
  MkClass "TypeError" "builtins" "Inappropriate argument type."
    [py_Exception] None [].
Definition py_AttributeError : pyclass :=
  MkClass "AttributeError" "builtins" "Attribute not found."
    [py_Exception] None [].
Definition py_AssertionError : pyclass :=
  MkClass "AssertionError" "builtins" "Assertion failed."
    [py_Exception] None [].

(** [abc.ABCMeta].  Its [__subclasscheck__] extends the MRO test of [type] to
    classes added with [register]; nothing in these sources registers a
    class, so it is left to the one inherited from [type]. *)
Definition abc_ABCMeta : pyclass :=
  MkClass "ABCMeta" "abc" "Metaclass for defining Abstract Base Classes (ABCs)."
    [py_type] None [("__new__", Def); ("register", Def)].

(* ---------------------------------------------------------------------- *)
(** ** The builtins [type], [isinstance(_, type)] and [issubclass] *)
(* ---------------------------------------------------------------------- *)

(** The metaclass of a class: the most derived among the [metaclass=] keyword
    ([type] when absent) and the metaclasses of the bases. *)
Fixpoint metaclass_of (c : pyclass) : pyclass :=
  match c with
  | MkClass _ _ _ bases meta _ =>
      fold_left
        (fun winner b =>
           let mb := metaclass_of b in
           if in_mro winner mb then mb else winner)
        bases
        (match meta with Some m => m | None => py_type end)
  end.

(** The class of an object. *)
Definition class_of (o : pyobj) : pyclass :=
  match o with
  | PyNone => py_NoneType
  | PyInt _ => py_int
  | PyStr _ => py_str
  | PyList _ => py_list
  | PyTuple _ => py_tuple
  | PyClass c => metaclass_of c
  | PyInstance c _ => c
  end.

(** [type(obj)]. *)
Definition builtin_type (o : pyobj) : pyobj := PyClass (class_of o).

(** [isinstance(obj, type)]: true of class objects and of nothing else. *)
Definition isinstance_type (o : pyobj) : bool :=
  match o with
  | PyClass _ => true
  | _ => false
  end.

(** [obj is None]. *)
Definition is_None (o : pyobj) : bool :=
  match o with
  | PyNone => true
  | _ => false
  end.

(** [issubclass(obj, cls)] for a class [cls]: the call
    [type(cls).__subclasscheck__(cls, obj)].  A metaclass may override the
    check to answer outright or to raise; the one of [type] requires [obj] to
    be a class and looks [cls] up in its MRO. *)
Definition issubclass (obj cls : pyobj) : outcome bool :=
  match cls with
  | PyClass c =>
      match class_getattr (metaclass_of c) "__subclasscheck__" with
      | Some (_, DefRaising exc) => Raise (PyInstance exc [])
      | Some (_, DefReturning b) => Return b
      | _ =>
          match obj with
          | PyClass s => Return (in_mro c s)
          | _ => Raise (PyInstance py_TypeError
                          [PyStr "issubclass() arg 1 must be a class"])
          end
      end
  | _ => Raise (PyInstance py_TypeError
                  [PyStr "issubclass() arg 2 must be a class"])
  end.

(* ---------------------------------------------------------------------- *)
(** ** [repr], [__name__] and abstract methods *)
(* ---------------------------------------------------------------------- *)

Definition string_of_Z (z : Z) : string := NilZero.string_of_int (Z.to_int z).

Fixpoint join (sep : string) (parts : list string) : string :=
  match parts with
  | [] => ""
  | [p] => p
  | p :: rest => p ++ sep ++ join sep rest
  end.

(** [repr(obj)] for the built-in [__repr__] implementations (the module
    prefix of a class and the address of a plain instance are left out). *)
Fixpoint py_repr (o : pyobj) : string :=
  match o with
  | PyNone => "None"
  | PyInt z => string_of_Z z
  | PyStr s => "'" ++ s ++ "'"
  | PyList items => "[" ++ join ", " (map py_repr items) ++ "]"
  | PyTuple [x] => "(" ++ py_repr x ++ ",)"
  | PyTuple items => "(" ++ join ", " (map py_repr items) ++ ")"
  | PyClass c => "<class '" ++ cls_name c ++ "'>"
  | PyInstance c state =>
      if in_mro py_BaseException c
      then cls_name c ++ "(" ++ join ", " (map py_repr state) ++ ")"
      else "<" ++ cls_name c ++ " object>"
  end.

(** [obj.__name__]: class objects have one; the other modelled objects raise
    [AttributeError]. *)
Definition getattr___name__ (o : pyobj) : outcome string :=
  match o with
  | PyClass c => Return (cls_name c)
  | _ => Raise (PyInstance py_AttributeError
                  [PyStr ("'" ++ cls_name (class_of o)
                          ++ "' object has no attribute '__name__'")])
  end.

Definition abstract_names (body : list (string * member)) : list string :=
  map fst
    (filter (fun kv => match snd kv with AbstractDef => true | _ => false end)
       body).

Definition is_abstract_attr (c : pyclass) (name : string) : bool :=
  match class_getattr c name with
  | Some (_, AbstractDef) => true
  | _ => false
  end.

(** [cls.__abstractmethods__] as [ABCMeta.__new__] computes it: the abstract
    names of the class body, and the abstract names of the bases that the
    class still resolves to an abstract function. *)
Fixpoint abstractmethods (c : pyclass) : list string :=
  match c with
  | MkClass _ _ _ bases _ body =>
      abstract_names body
      ++ filter (is_abstract_attr c) (List.concat (map abstractmethods bases))
  end.

(** [cls.__new__(cls, *args)].  [object.__new__] refuses a class whose
    [__abstractmethods__] is not empty; [BaseException.__new__] allocates
    without that test and stores [args]. *)
Definition class_new (cls : pyclass) (args : list pyobj) : outcome pyobj :=
  if in_mro py_BaseException cls then Return (PyInstance cls args)
  else
    match abstractmethods cls with
    | [] => Return (PyInstance cls [])
    | _ :: _ =>
        Raise (PyInstance py_TypeError
                 [PyStr ("Can't instantiate abstract class " ++ cls_name cls)])
    end.

(* ---------------------------------------------------------------------- *)
(** ** Mutable class attributes and the monad of calls *)
(* ---------------------------------------------------------------------- *)

(** The [__module__] attributes rebound since the classes were created,
    latest first. *)
Definition store : Type := list (pyclass * string).

Fixpoint rebound_module (c : pyclass) (st : store) : option string :=
  match st with
  | [] => None
  | (k, m) :: rest => if pyclass_eqb c k then Some m else rebound_module c rest
  end.

(** [cls.__module__]. *)
Definition getattr___module__ (c : pyclass) (st : store) : string :=
  match rebound_module c st with
  | Some m => m
  | None => cls_module c
  end.

(** A call that may raise and may rebind class attributes. *)
Definition py (A : Type) : Type := store -> outcome A * store.

Definition ret {A : Type} (a : A) : py A := fun st => (Return a, st).
Definition raise {A : Type} (exc : pyobj) : py A := fun st => (Raise exc, st).
Definition lift {A : Type} (r : outcome A) : py A := fun st => (r, st).
Definition bind {A B : Type} (m : py A) (k : A -> py B) : py B :=
  fun st =>
    match m st with
    | (Return a, st') => k a st'
    | (Raise exc, st') => (Raise exc, st')
    end.
(** [cls.__module__ = m]. *)
Definition setattr___module__ (c : pyclass) (m : string) : py unit :=
  fun st => (Return tt, (c, m) :: st).

Declare Scope py_scope.
Delimit Scope py_scope with py.
Notation "x <- m ;; k" := (bind m (fun x => k))
  (at level 61, m at next level, right associativity) : py_scope.
Notation "m ;;; k" := (bind m (fun _ => k))
  (at level 61, right associativity) : py_scope.

(* ====================================================================== *)
(** * beartype/roar/_roarexc.py: the exception hierarchy *)
(* ====================================================================== *)

(** Each definition is one [class] statement of the module, in the module's
    order: its name, the first paragraph of its docstring, its bases and
    metaclass keyword, and the names its body binds ([pass] binds none). *)

Definition BeartypeException : pyclass :=
  MkClass "BeartypeException" "beartype.roar._roarexc"
    "Abstract base class of all **beartype exceptions.**"
    [py_Exception] (Some abc_ABCMeta) [("__init__", Def)].

Definition BeartypeCaveException : pyclass :=
  MkClass "BeartypeCaveException" "beartype.roar._roarexc"
    "Abstract base class of all **beartype cave exceptions.**"
    [BeartypeException] None [].

Definition BeartypeCaveNoneTypeOrException : pyclass :=
  MkClass "BeartypeCaveNoneTypeOrException" "beartype.roar._roarexc"
    "Abstract base class of all **beartype cave** ``None`` **tuple factory exceptions.**"
    [BeartypeCaveException] None [].

Definition BeartypeCaveNoneTypeOrKeyException : pyclass :=
  MkClass "BeartypeCaveNoneTypeOrKeyException" "beartype.roar._roarexc"
    "**Beartype cave** ``None`` **tuple factory key exception.**"
    [BeartypeCaveNoneTypeOrException] None [].

Definition BeartypeCaveNoneTypeOrMutabilityException : pyclass :=
  MkClass "BeartypeCaveNoneTypeOrMutabilityException" "beartype.roar._roarexc"
    "**Beartype cave** ``None`` **tuple factory mutability exception.**"
    [BeartypeCaveNoneTypeOrException] None [].

Definition BeartypeConfException : pyclass :=
  MkClass "BeartypeConfException" "beartype.roar._roarexc"
    "**Beartype configuration exception.**"
    [BeartypeException] None [].

Definition BeartypeDecorException : pyclass :=
  MkClass "BeartypeDecorException" "beartype.roar._roarexc"
    "Abstract base class of all **beartype decorator exceptions.**"
    [BeartypeException] None [].

Definition BeartypeDecorWrappeeException : pyclass :=
  MkClass "BeartypeDecorWrappeeException" "beartype.roar._roarexc"
    "**Beartype decorator wrappee exception.**"
    [BeartypeDecorException] None [].

Definition BeartypeDecorWrapperException : pyclass :=
  MkClass "BeartypeDecorWrapperException" "beartype.roar._roarexc"
    "**Beartype decorator parse exception.**"
    [BeartypeDecorException] None [].

Definition BeartypeDecorHintException : pyclass :=
  MkClass "BeartypeDecorHintException" "beartype.roar._roarexc"
    "Abstract base class of all **beartype decorator type hint exceptions.**"
    [BeartypeDecorException] None [].

Definition BeartypeDecorHintForwardRefException : pyclass :=
  MkClass "BeartypeDecorHintForwardRefException" "beartype.roar._roarexc"
    "**Beartype decorator forward reference type hint exception.**"
    [BeartypeDecorHintException] None [].

Definition BeartypeDecorHintTypeException : pyclass :=
  MkClass "BeartypeDecorHintTypeException" "beartype.roar._roarexc"
    "**Beartype decorator class type hint exception.**"
    [BeartypeDecorHintException] None [].

Definition BeartypeDecorHintNonpepException : pyclass :=
  MkClass "BeartypeDecorHintNonpepException" "beartype.roar._roarexc"
    "**Beartype decorator PEP-noncompliant type hint exception.**"
    [BeartypeDecorHintException] None [].

Definition BeartypeDecorHintNonpepNumpyException : pyclass :=
  MkClass "BeartypeDecorHintNonpepNumpyException" "beartype.roar._roarexc"
    "**Beartype decorator PEP-noncompliant NumPy type hint exception.**"
    [BeartypeDecorHintNonpepException] None [].

Definition BeartypeDecorHintPepException : pyclass :=
  MkClass "BeartypeDecorHintPepException" "beartype.roar._roarexc"
    "Abstract base class of all **beartype decorator PEP-compliant type hint value exceptions.**"
    [BeartypeDecorHintException] None [].

Definition BeartypeDecorHintPepSignException : pyclass :=
  MkClass "BeartypeDecorHintPepSignException" "beartype.roar._roarexc"
    "**Beartype decorator PEP-compliant type hint sign exception.**"
    [BeartypeDecorHintPepException] None [].

Definition BeartypeDecorHintPepUnsupportedException : pyclass :=
  MkClass "BeartypeDecorHintPepUnsupportedException" "beartype.roar._roarexc"
    "**Beartype decorator unsupported PEP-compliant type hint exception.**"
    [BeartypeDecorHintPepException] None [].

Definition BeartypeDecorHintPep3119Exception : pyclass :=
  MkClass "BeartypeDecorHintPep3119Exception" "beartype.roar._roarexc"
    "**Beartype decorator** :pep:`3119`-compliant **type hint exception.**"
    [BeartypeDecorHintPepException] None [].

Definition BeartypeDecorHintPep484Exception : pyclass :=
  MkClass "BeartypeDecorHintPep484Exception" "beartype.roar._roarexc"
    "**Beartype decorator** :pep:`484`-compliant **type hint exception.**"
    [BeartypeDecorHintPepException] None [].

Definition BeartypeDecorHintPep484585Exception : pyclass :=
  MkClass "BeartypeDecorHintPep484585Exception" "beartype.roar._roarexc"
    "**Beartype decorator** :pep:`484`- or :pep:`585`-compliant **dual type hint exception.**"
    [BeartypeDecorHintPepException] None [].

Definition BeartypeDecorHintPep544Exception : pyclass :=
  MkClass "BeartypeDecorHintPep544Exception" "beartype.roar._roarexc"
    "**Beartype decorator** :pep:`544`-compliant **type hint exception.**"
    [BeartypeDecorHintPepException] None [].

Definition BeartypeDecorHintPep557Exception : pyclass :=
  MkClass "BeartypeDecorHintPep557Exception" "beartype.roar._roarexc"
    "**Beartype decorator** :pep:`557`-compliant **type hint exception.**"
    [BeartypeDecorHintPepException] None [].

Definition BeartypeDecorHintPep585Exception : pyclass :=
  MkClass "BeartypeDecorHintPep585Exception" "beartype.roar._roarexc"
    "**Beartype decorator** :pep:`585`-compliant **type hint exception.**"
    [BeartypeDecorHintPepException] None [].

Definition BeartypeDecorHintPep586Exception : pyclass :=
  MkClass "BeartypeDecorHintPep586Exception" "beartype.roar._roarexc"
    "**Beartype decorator** :pep:`586`-compliant **type hint exception.**"
    [BeartypeDecorHintPepException] None [].

Definition BeartypeDecorHintPep593Exception : pyclass :=
  MkClass "BeartypeDecorHintPep593Exception" "beartype.roar._roarexc"
    "**Beartype decorator** :pep:`593`-compliant **type hint exception.**"
    [BeartypeDecorHintPepException] None [].

Definition BeartypeDecorParamException : pyclass :=
  MkClass "BeartypeDecorParamException" "beartype.roar._roarexc"
    "Abstract base class of all **beartype decorator parameter exceptions.**"
    [BeartypeDecorException] None [].

Definition BeartypeDecorParamNameException : pyclass :=
  MkClass "BeartypeDecorParamNameException" "beartype.roar._roarexc"
    "**Beartype decorator parameter name exception.**"
    [BeartypeDecorParamException] None [].

Definition BeartypeDecorPepException : pyclass :=
  MkClass "BeartypeDecorPepException" "beartype.roar._roarexc"
    "Abstract base class of all **beartype decorator Python Enhancement Proposal (PEP) exceptions.**"
    [BeartypeDecorException] None [].

Definition BeartypeDecorHintPep563Exception : pyclass :=
  MkClass "BeartypeDecorHintPep563Exception" "beartype.roar._roarexc"
    "**Beartype decorator** `PEP 563`_ **evaluation exception.**"
    [BeartypeDecorPepException] None [].

Definition BeartypeCallException : pyclass :=
  MkClass "BeartypeCallException" "beartype.roar._roarexc"
    "Abstract base class of all **beartyped callable exceptions.**"
    [BeartypeException] None [].

Definition BeartypeCallUnavailableTypeException : pyclass :=
  MkClass "BeartypeCallUnavailableTypeException" "beartype.roar._roarexc"
    "**Beartyped callable unavailable type exceptions.**"
    [BeartypeCallException] None [].

Definition BeartypeCallHintException : pyclass :=
  MkClass "BeartypeCallHintException" "beartype.roar._roarexc"
    "Abstract base class of all **beartyped callable type-checking exceptions.**"
    [BeartypeCallException] None [].

Definition BeartypeCallHintForwardRefException : pyclass :=
  MkClass "BeartypeCallHintForwardRefException" "beartype.roar._roarexc"
    "**Beartyped callable forward reference type-checking exception.**"
    [BeartypeCallHintException] None [].

Definition BeartypeCallHintViolation : pyclass :=
  MkClass "BeartypeCallHintViolation" "beartype.roar._roarexc"
    "Abstract base class of all **beartyped callable type-checking violations.**"
    [BeartypeCallHintException] None [].

Definition BeartypeCallHintParamViolation : pyclass :=
  MkClass "BeartypeCallHintParamViolation" "beartype.roar._roarexc"
    "**Beartyped callable parameter type-checking exception.**"
    [BeartypeCallHintViolation] None [].

Definition BeartypeCallHintReturnViolation : pyclass :=
  MkClass "BeartypeCallHintReturnViolation" "beartype.roar._roarexc"
    "**Beartyped callable return type-checking exception.**"
    [BeartypeCallHintViolation] None [].

Definition BeartypeAbbyHintViolation : pyclass :=
  MkClass "BeartypeAbbyHintViolation" "beartype.roar._roarexc"
    "**Beartype functional type-checking exception.**"
    [BeartypeCallHintViolation] None [].

Definition BeartypeClawException : pyclass :=
  MkClass "BeartypeClawException" "beartype.roar._roarexc"
    "Abstract base class of all **beartype import hook exceptions.**"
    [BeartypeException] None [].

Definition BeartypeClawRegistrationException : pyclass :=
  MkClass "BeartypeClawRegistrationException" "beartype.roar._roarexc"
    "**Beartype import hook registration exception.**"
    [BeartypeClawException] None [].

Definition BeartypeValeException : pyclass :=
  MkClass "BeartypeValeException" "beartype.roar._roarexc"
    "Abstract base class of all **beartype validator exceptions.**"
    [BeartypeException] None [].

Definition BeartypeValeSubscriptionException : pyclass :=
  MkClass "BeartypeValeSubscriptionException" "beartype.roar._roarexc"
    "**Beartype validator subscription exception.**"
    [BeartypeValeException] None [].

Definition _BeartypeDecorBeartypistryException : pyclass :=
  MkClass "_BeartypeDecorBeartypistryException" "beartype.roar._roarexc"
    "**Beartype decorator beartypistry exception.**"
    [BeartypeDecorException] None [].

Definition _BeartypeUtilException : pyclass :=
  MkClass "_BeartypeUtilException" "beartype.roar._roarexc"
    "Abstract base class of all **beartype private utility exceptions.**"
    [BeartypeException] None [].

Definition _BeartypeUtilCallableException : pyclass :=
  MkClass "_BeartypeUtilCallableException" "beartype.roar._roarexc"
    "**Beartype callable utility exception.**"
    [_BeartypeUtilException] None [].

Definition _BeartypeUtilMappingException : pyclass :=
  MkClass "_BeartypeUtilMappingException" "beartype.roar._roarexc"
    "**Beartype mapping utility exception.**"
    [_BeartypeUtilException] None [].

Definition _BeartypeUtilModuleException : pyclass :=
  MkClass "_BeartypeUtilModuleException" "beartype.roar._roarexc"
    "**Beartype module utility exception.**"
    [_BeartypeUtilException] None [].

Definition _BeartypeUtilPathException : pyclass :=
  MkClass "_BeartypeUtilPathException" "beartype.roar._roarexc"
    "**Beartype path utility exception.**"
    [_BeartypeUtilException] None [].

Definition _BeartypeUtilPythonException : pyclass :=
  MkClass "_BeartypeUtilPythonException" "beartype.roar._roarexc"
    "**Beartype Python utility exception.**"
    [_BeartypeUtilException] None [].

Definition _BeartypeUtilTextException : pyclass :=
  MkClass "_BeartypeUtilTextException" "beartype.roar._roarexc"
    "**Beartype text utility exception.**"
    [_BeartypeUtilException] None [].

Definition _BeartypeUtilTypeException : pyclass :=
  MkClass "_BeartypeUtilTypeException" "beartype.roar._roarexc"
    "**Beartype class utility exception.**"
    [_BeartypeUtilException] None [].

Definition _BeartypeCallHintRaiseException : pyclass :=
  MkClass "_BeartypeCallHintRaiseException" "beartype.roar._roarexc"
    "Abstract base class of all **beartype human-readable exception raiser exceptions.**"
    [_BeartypeUtilException] None [].

Definition _BeartypeCallHintPepRaiseException : pyclass :=
  MkClass "_BeartypeCallHintPepRaiseException" "beartype.roar._roarexc"
    "**Beartype PEP-compliant human-readable exception raiser exception.**"
    [_BeartypeCallHintRaiseException] None [].

Definition _BeartypeCallHintPepRaiseDesynchronizationException : pyclass :=
  MkClass "_BeartypeCallHintPepRaiseDesynchronizationException" "beartype.roar._roarexc"
    "**Beartype human-readable exception raiser desynchronization exception.**"
    [_BeartypeCallHintPepRaiseException] None [].

Definition _BeartypeUtilCachedException : pyclass :=
  MkClass "_BeartypeUtilCachedException" "beartype.roar._roarexc"
    "Abstract base class of all **beartype caching utility exceptions.**"
    [_BeartypeUtilException] None [].

Definition _BeartypeUtilCallableCachedException : pyclass :=
  MkClass "_BeartypeUtilCallableCachedException" "beartype.roar._roarexc"
    "**Beartype memoization exception.**"
    [_BeartypeUtilCachedException] None [].

Definition _BeartypeUtilCacheLruException : pyclass :=
  MkClass "_BeartypeUtilCacheLruException" "beartype.roar._roarexc"
    "**Beartype Least Recently Used (LRU) cache exception.**"
    [_BeartypeUtilCachedException] None [].

Definition _BeartypeUtilCachedKeyPoolException : pyclass :=
  MkClass "_BeartypeUtilCachedKeyPoolException" "beartype.roar._roarexc"
    "**Beartype key pool exception.**"
    [_BeartypeUtilException] None [].

Definition _BeartypeUtilCachedFixedListException : pyclass :=
  MkClass "_BeartypeUtilCachedFixedListException" "beartype.roar._roarexc"
    "**Beartype decorator fixed list exception.**"
    [_BeartypeUtilCachedException] None [].

Definition _BeartypeUtilCachedObjectTypedException : pyclass :=
  MkClass "_BeartypeUtilCachedObjectTypedException" "beartype.roar._roarexc"
    "**Beartype decorator typed object exception.**"
    [_BeartypeUtilCachedException] None [].

Definition _BeartypeUtilObjectException : pyclass :=
  MkClass "_BeartypeUtilObjectException" "beartype.roar._roarexc"
    "Abstract base class of all **beartype object utility exceptions.**"
    [_BeartypeUtilException] None [].

Definition _BeartypeUtilObjectNameException : pyclass :=
  MkClass "_BeartypeUtilObjectNameException" "beartype.roar._roarexc"
    "**Beartype object name exception.**"
    [_BeartypeUtilObjectException] None [].

(** Every class the module defines, in definition order. *)
Definition roarexc_classes : list pyclass :=
  [ BeartypeException;
    BeartypeCaveException;
    BeartypeCaveNoneTypeOrException;
    BeartypeCaveNoneTypeOrKeyException;
    BeartypeCaveNoneTypeOrMutabilityException;
    BeartypeConfException;
    BeartypeDecorException;
    BeartypeDecorWrappeeException;
    BeartypeDecorWrapperException;
    BeartypeDecorHintException;
    BeartypeDecorHintForwardRefException;
    BeartypeDecorHintTypeException;
    BeartypeDecorHintNonpepException;
    BeartypeDecorHintNonpepNumpyException;
    BeartypeDecorHintPepException;
    BeartypeDecorHintPepSignException;
    BeartypeDecorHintPepUnsupportedException;
    BeartypeDecorHintPep3119Exception;
    BeartypeDecorHintPep484Exception;
    BeartypeDecorHintPep484585Exception;
    BeartypeDecorHintPep544Exception;
    BeartypeDecorHintPep557Exception;
    BeartypeDecorHintPep585Exception;
    BeartypeDecorHintPep586Exception;
    BeartypeDecorHintPep593Exception;
    BeartypeDecorParamException;
    BeartypeDecorParamNameException;
    BeartypeDecorPepException;
    BeartypeDecorHintPep563Exception;
    BeartypeCallException;
    BeartypeCallUnavailableTypeException;
    BeartypeCallHintException;
    BeartypeCallHintForwardRefException;
    BeartypeCallHintViolation;
    BeartypeCallHintParamViolation;
    BeartypeCallHintReturnViolation;
    BeartypeAbbyHintViolation;
    BeartypeClawException;
    BeartypeClawRegistrationException;
    BeartypeValeException;
    BeartypeValeSubscriptionException;
    _BeartypeDecorBeartypistryException;
    _BeartypeUtilException;
    _BeartypeUtilCallableException;
    _BeartypeUtilMappingException;
    _BeartypeUtilModuleException;
    _BeartypeUtilPathException;
    _BeartypeUtilPythonException;
    _BeartypeUtilTextException;
    _BeartypeUtilTypeException;
    _BeartypeCallHintRaiseException;
    _BeartypeCallHintPepRaiseException;
    _BeartypeCallHintPepRaiseDesynchronizationException;
    _BeartypeUtilCachedException;
    _BeartypeUtilCallableCachedException;
    _BeartypeUtilCacheLruException;
    _BeartypeUtilCachedKeyPoolException;
    _BeartypeUtilCachedFixedListException;
    _BeartypeUtilCachedObjectTypedException;
    _BeartypeUtilObjectException;
    _BeartypeUtilObjectNameException ].

Fixpoint string_prefix (p s : string) : bool :=
  match p, s with
  | EmptyString, _ => true
  | String a p', String b s' => Ascii.eqb a b && string_prefix p' s'
  | String _ _, EmptyString => false
  end.

(** The classes whose docstring introduces them as an abstract base class. *)
Definition documented_abstract (c : pyclass) : bool :=
  string_prefix "Abstract base class" (cls_doc c).

(** The classes no other class of the module derives from. *)
Definition is_leaf (c : pyclass) : bool :=
  negb (existsb (fun d => mem_class c (cls_bases d)) roarexc_classes).

(** [BeartypeException.__init__(self, message)]. *)
Definition BeartypeException___init__ (self : pyobj) (args : list pyobj)
  : py unit :=
  match args with
  | [message] =>
      (* super().__init__(message): BaseException keeps its arguments, which
         BaseException.__new__ has stored in the instance already. *)
      (* self.__class__.__module__ = 'beartype.roar' *)
      setattr___module__ (class_of self) "beartype.roar"
  | _ =>
      raise (PyInstance py_TypeError
               [PyStr "__init__() takes exactly one argument (message)"])
  end.

(** The call [cls(args...)], that is [type.__call__]: [cls.__new__], then the
    [__init__] the class resolves to.  The only [__init__] these sources
    define is the one of [BeartypeException]; the built-in ones accept their
    arguments and change nothing more. *)
Definition call_class (cls : pyclass) (args : list pyobj) : py pyobj :=
  (self <- lift (class_new cls args) ;;
   match class_getattr cls "__init__" with
   | Some (owner, _) =>
       if pyclass_eqb owner BeartypeException
       then (BeartypeException___init__ self args ;;; ret self)
       else ret self
   | None => ret self
   end)%py.

(* ====================================================================== *)
(** * beartype/_util/utilobject.py *)
(* ====================================================================== *)

(** [class Iota(object): __slots__ = ()] *)
Definition Iota : pyclass :=
  MkClass "Iota" "beartype._util.utilobject"
    "**Iota** (i.e., object minimizing space consumption by guaranteeably containing *no* attributes)."
    [py_object] None [("__slots__", Def)].

(** [SENTINEL = Iota()] *)
Definition SENTINEL : pyobj := PyInstance Iota [].

(** [is_object_subclass(obj, cls)]. *)
Definition is_object_subclass (obj cls : pyobj) : outcome bool :=
  (* assert isinstance(cls, type), f'{repr(cls)} not class.' *)
  if negb (isinstance_type cls)
  then Raise (PyInstance py_AssertionError [PyStr (py_repr cls ++ " not class.")])
  else
    (* return isinstance(obj, type) and issubclass(obj, cls) *)
    if isinstance_type obj then issubclass obj cls else Return false.

(** [get_object_class_unless_class(obj)]. *)
Definition get_object_class_unless_class (obj : pyobj) : pyobj :=
  (* return obj if isinstance(obj, type) else type(obj) *)
  if isinstance_type obj then obj else builtin_type obj.

Section utilobject_names.

(** [beartype._util.py.utilpymodule.get_object_class_module_name_or_none],
    a function of another module: the name of the module defining the
    class of its argument, or [None]. *)
Variable get_object_class_module_name_or_none : pyobj -> option string.

(** [get_object_name(obj)]. *)
Definition get_object_name (obj : pyobj) : outcome string :=
  (* object_basename = object.__name__ *)
  match getattr___name__ (PyClass py_object) with
  | Raise exc => Raise exc
  | Return object_basename =>
      (* object_module_name = get_object_class_module_name_or_none(object) *)
      let object_module_name :=
        get_object_class_module_name_or_none (PyClass py_object) in
      Return
        match object_module_name with
        | Some module_name =>
            (* f'{object_module_name}.{object_basename}' *)
            (module_name ++ "." ++ object_basename)%string
        | None => object_basename
        end
  end.

End utilobject_names.

(* ====================================================================== *)
(** * beartype/_util/hint/utilhintget.py *)
(* ====================================================================== *)

Definition dquote : string := String (ascii_of_nat 34) EmptyString.

Section utilhintget.

(** [beartype._util.hint.pep.utilhintpeptest.is_hint_pep_typing], a tester
    of another module: whether the object is a [typing] attribute. *)
Variable is_hint_pep_typing : pyobj -> bool.

(** [beartype._util.hint.pep.utilhintpepdata.TYPING_ATTR_TO_TYPE_ORIGIN],
    the dictionary of another module from [typing] attributes to the
    [isinstance]-able classes they originate from. *)
Variable TYPING_ATTR_TO_TYPE_ORIGIN : pyobj -> option pyclass.

(** [TYPING_ATTR_TO_TYPE_ORIGIN_GET = TYPING_ATTR_TO_TYPE_ORIGIN.get]. *)
Definition TYPING_ATTR_TO_TYPE_ORIGIN_GET (key default : pyobj) : pyobj :=
  match TYPING_ATTR_TO_TYPE_ORIGIN key with
  | Some origin => PyClass origin
  | None => default
  end.

(** [get_hint_type_origin_or_none(hint)]. *)
Definition get_hint_type_origin_or_none (hint : pyobj) : pyobj :=
  (* TYPING_ATTR_TO_TYPE_ORIGIN_GET(hint, None) if is_hint_pep_typing(hint) *)
  if is_hint_pep_typing hint then TYPING_ATTR_TO_TYPE_ORIGIN_GET hint PyNone
  (* else hint if isinstance(hint, type) *)
  else if isinstance_type hint then hint
  (* else None *)
  else PyNone.

(** The builtin [repr]: the string the [__repr__] of the object returns, or
    the exception it raises. *)
Variable builtin_repr : pyobj -> outcome string.

(** The message of the exception: the format string of the source with the
    string [repr] returned for the hint in place of its replacement field
    [{!r}]. *)
Definition origin_error_message (hint_repr : string) : string :=
  "PEP-agnostic type hint " ++ hint_repr
  ++ " originates from no non-" ++ dquote ++ "typing" ++ dquote
  ++ " type (i.e., due to being neither an argumentless "
  ++ dquote ++ "typing" ++ dquote ++ " attribute nor a non-"
  ++ dquote ++ "typing" ++ dquote ++ " type).".

(** [get_hint_type_origin(hint)]. *)
Definition get_hint_type_origin (hint : pyobj) : py pyobj :=
  (* hint_type_origin = get_hint_type_origin_or_none(hint) *)
  let hint_type_origin := get_hint_type_origin_or_none hint in
  (* if hint_type_origin is not None: return hint_type_origin *)
  if negb (is_None hint_type_origin) then ret hint_type_origin
  else
    (* raise BeartypeDecorHintException('...{!r}...'.format(hint)):
       the argument is evaluated first, and formatting calls repr(hint) *)
    (hint_repr <- lift (builtin_repr hint) ;;
     exc <- call_class BeartypeDecorHintException
              [PyStr (origin_error_message hint_repr)] ;;
     raise exc)%py.

End utilhintget.

(* ====================================================================== *)
(** * The checking engine behind the decorated callable *)
(* ====================================================================== *)

(** The [beartype] decorator, the checks it generates and the diagnoser of
    violations are code of the package that is not among the files embedded
    above; [test_beartype.py] exercises them.  They are modelled here from
    the specification of the engine (its data model, check synthesizer,
    violation diagnoser and external interface). *)

(** [isinstance(obj, cls)] for a class whose metaclass keeps the check of
    [type]: the class of the object has [cls] in its MRO. *)
Definition isinstance_of (obj : pyobj) (cls : pyclass) : bool :=
  in_mro cls (class_of obj).

(** The items of a container: of a list, a tuple, or an instance of a class
    deriving from one of them. *)
Definition items_of (v : pyobj) : list pyobj :=
  match v with
  | PyList items => items
  | PyTuple items => items
  | PyInstance c items =>
      if in_mro py_list c || in_mro py_tuple c then items else []
  | _ => []
  end.

(** Equality of values ([==]) on the modelled objects. *)
Fixpoint pyobj_eqb (a b : pyobj) {struct a} : bool :=
  let items_eqb :=
    fix items_eqb (xs ys : list pyobj) {struct xs} : bool :=
      match xs, ys with
      | [], [] => true
      | x :: xs', y :: ys' => pyobj_eqb x y && items_eqb xs' ys'
      | _, _ => false
      end in
  match a, b with
  | PyNone, PyNone => true
  | PyInt x, PyInt y => Z.eqb x y
  | PyStr x, PyStr y => String.eqb x y
  | PyList xs, PyList ys => items_eqb xs ys
  | PyTuple xs, PyTuple ys => items_eqb xs ys
  | PyClass x, PyClass y => pyclass_eqb x y
  | PyInstance c xs, PyInstance d ys => pyclass_eqb c d && items_eqb xs ys
  | _, _ => false
  end.

(** Modelled from the spec: the hint, a recursive tree (section 3).  The
    signs modelled are the class, the union of alternatives, the
    parametrized sequence with its origin class and element hint, the literal
    set, and the validator attached to a base hint, its predicate a boolean
    function of one value. *)
Inductive hint : Type :=
| HintClass (cls : pyclass)
| HintUnion (alternatives : list hint)
| HintSequence (origin : pyclass) (elem : hint)
| HintLiteral (allowed : list pyobj)
| HintAnnotated (base : hint) (validator : pyobj -> bool).

(** Modelled from the spec: the sign, the category tag of a hint
    (section 3). *)
Definition sign_of (h : hint) : string :=
  match h with
  | HintClass _ => "class"
  | HintUnion _ => "union"
  | HintSequence _ _ => "generic-sequence"
  | HintLiteral _ => "literal-set"
  | HintAnnotated _ _ => "annotated"
  end.

(** Modelled from the spec: the source of the indices the sampling policy
    draws (section 4.4), as the numbers still to be drawn; an exhausted
    source draws 0. *)
Definition rng : Type := list nat.

Definition draw (g : rng) : nat * rng :=
  match g with
  | [] => (0, [])
  | n :: rest => (n, rest)
  end.

(** Modelled from the spec: the check of a union (section 4.4), the
    disjunction of the checks of its alternatives in declaration order,
    stopping at the first that succeeds. *)
Fixpoint check_any (check_alt : hint -> rng -> bool * rng)
    (alts : list hint) (g : rng) {struct alts} : bool * rng :=
  match alts with
  | [] => (false, g)
  | a :: rest =>
      let (ok, g') := check_alt a g in
      if ok then (true, g') else check_any check_alt rest g'
  end.

(** Modelled from the spec: the compiled check (section 4.4), with a sample
    of one element per container.  A class is tested by membership in it; a
    union is the short-circuit disjunction of its alternatives in declaration
    order; a sequence is tested against its origin and then at one sampled
    element; a literal set by equality membership; a validator by its base
    hint and then its predicate. *)
Fixpoint check (h : hint) (v : pyobj) (g : rng) {struct h} : bool * rng :=
  match h with
  | HintClass cls => (isinstance_of v cls, g)
  | HintUnion alternatives =>
      check_any (fun a g => check a v g) alternatives g
  | HintSequence origin elem =>
      if isinstance_of v origin then
        match items_of v with
        | [] => (true, g)
        | (x0 :: _) as items =>
            let (i, g') := draw g in
            check elem (nth (i mod List.length items) items x0) g'
        end
      else (false, g)
  | HintLiteral allowed => (existsb (pyobj_eqb v) allowed, g)
  | HintAnnotated base validator =>
      let (ok, g') := check base v g in
      if ok then (validator v, g') else (false, g')
  end.

(** The path of the first item the function blames, if it blames one. *)
Fixpoint first_failing (blame : pyobj -> option (list pyobj))
    (items : list pyobj) : option (list pyobj) :=
  match items with
  | [] => None
  | x :: rest =>
      match blame x with
      | Some path => Some (x :: path)
      | None => first_failing blame rest
      end
  end.

Definition is_none {A : Type} (o : option A) : bool :=
  match o with
  | None => true
  | Some _ => false
  end.

(** Modelled from the spec: the walk of the violation diagnoser
    (section 4.5) over a hint and a value, exhaustive where the check
    samples.  [None] when no part of the value fails; otherwise the
    sub-values blamed below the value, outermost first: none when the shallow
    test of the current hint fails, else the first failing element of a
    container followed by what is blamed inside it, and for a union what its
    first alternative blames. *)
Fixpoint find_culprits (h : hint) (v : pyobj) {struct h}
  : option (list pyobj) :=
  match h with
  | HintClass cls => if isinstance_of v cls then None else Some []
  | HintUnion alternatives =>
      let blamed := map (fun a => find_culprits a v) alternatives in
      if existsb is_none blamed then None
      else Some match blamed with
                | Some path :: _ => path
                | _ => []
                end
  | HintSequence origin elem =>
      if isinstance_of v origin
      then first_failing (find_culprits elem) (items_of v)
      else Some []
  | HintLiteral allowed =>
      if existsb (pyobj_eqb v) allowed then None else Some []
  | HintAnnotated base validator =>
      match find_culprits base v with
      | Some path => Some path
      | None => if validator v then None else Some []
      end
  end.

(** Modelled from the spec: a value satisfies a hint when the exhaustive
    walk finds no failing part. *)
Definition satisfies (h : hint) (v : pyobj) : bool :=
  is_none (find_culprits h v).

(** Modelled from the spec: the violation record (section 3): the hint, the
    failing value, the culprits, outermost first, and the explanation. *)
Record violation : Type := MkViolation {
  viol_hint : hint;
  viol_pith : pyobj;
  viol_culprits : list pyobj;
  viol_message : string
}.

(** Modelled from the spec: what the caller of a checked callable gets
    (section 6): the value, a violation of the user-facing call-time kind
    given, or the internal desynchronization fault. *)
Inductive checked : Type :=
| Passed (value : pyobj)
| Violated (kind : pyclass) (v : violation)
| Desynchronized (kind : pyclass).

Section diagnoser.

(** Whether a weak reference to the object can be made. *)
Variable weakly_referenceable : pyobj -> bool.

(** Modelled from the spec: a culprit is the blamed object itself, or its
    textual representation when the object cannot be referenced weakly
    (sections 4.5 and 9). *)
Definition culprit_of (o : pyobj) : pyobj :=
  if weakly_referenceable o then o else PyStr (py_repr o).

(** Modelled from the spec: the diagnoser (section 4.5).  The culprits are
    headed by the outermost failing value; when the exhaustive walk finds
    no failing part there is no violation to report. *)
Definition diagnose (h : hint) (pith : pyobj) : option violation :=
  match find_culprits h pith with
  | Some path =>
      Some {| viol_hint := h;
              viol_pith := pith;
              viol_culprits := map culprit_of (pith :: path);
              viol_message :=
                py_repr pith ++ " violates " ++ sign_of h ++ " hint at "
                ++ join " -> " (map py_repr (pith :: path)) |}
  | None => None
  end.

(** Modelled from the spec: the failure path of a checked call
    (sections 4.5 and 7): the violation of the given kind, or the
    desynchronization fault when the diagnoser disagrees with the check. *)
Definition report (kind : pyclass) (h : hint) (pith : pyobj) : checked :=
  match diagnose h pith with
  | Some v => Violated kind v
  | None => Desynchronized _BeartypeCallHintPepRaiseDesynchronizationException
  end.

(** Modelled from the spec: the callable the decorator returns for a
    callable of one parameter, the parameter and the return annotated by
    the same hint: check the argument, call, check the result, return
    it. *)
Definition beartype (h : hint) (func : pyobj -> pyobj)
    (arg : pyobj) (g : rng) : checked * rng :=
  let (ok_param, g1) := check h arg g in
  if ok_param then
    let result := func arg in
    let (ok_return, g2) := check h result g1 in
    if ok_return then (Passed result, g2)
    else (report BeartypeCallHintReturnViolation h result, g2)
  else (report BeartypeCallHintParamViolation h arg, g1).

End diagnoser.

(** [test_beartype.py]: [def func_untyped(hint_param: hint) -> hint:
    return hint_param]. *)
Definition func_untyped (hint_param : pyobj) : pyobj := hint_param.

(** Sub-values: the items of a container and, transitively, theirs. *)
Inductive subvalue : pyobj -> pyobj -> Prop :=
| subvalue_item : forall x v, In x (items_of v) -> subvalue x v
| subvalue_deeper : forall x y v,
    subvalue x y -> In y (items_of v) -> subvalue x v.

Fixpoint obj_size (o : pyobj) : nat :=
  let sizes :=
    fix sizes (xs : list pyobj) : nat :=
      match xs with
      | [] => 0
      | x :: rest => obj_size x + sizes rest
      end in
  match o with
  | PyList items => S (sizes items)
  | PyTuple items => S (sizes items)
  | PyInstance _ items => S (sizes items)
  | _ => 1
  end.

(* ---------------------------------------------------------------------- *)
(** ** Classes and tables the statements below are instantiated at *)
(* ---------------------------------------------------------------------- *)

(** The metaclass and the class that the docstring of
    [BeartypeCallUnavailableTypeException] describes: passing the class to
    [isinstance] or [issubclass] raises that exception. *)
Definition UnavailableTypeMeta : pyclass :=
  MkClass "_UnavailableTypeMeta" "beartype.cave" "" [py_type] None
    [("__instancecheck__", DefRaising BeartypeCallUnavailableTypeException);
     ("__subclasscheck__", DefRaising BeartypeCallUnavailableTypeException)].

Definition UnavailableType : pyclass :=
  MkClass "UnavailableType" "beartype.cave" "" [py_object]
    (Some UnavailableTypeMeta) [].

(** A [typing] attribute that is a class and whose [__subclasscheck__]
    raises unconditionally, as the comments of
    [get_hint_type_origin_or_none] describe them. *)
Definition typing_GenericMeta : pyclass :=
  MkClass "GenericMeta" "typing" "Metaclass for generic types." [abc_ABCMeta]
    None [("__subclasscheck__", DefRaising py_TypeError)].

Definition typing_List : pyclass :=
  MkClass "List" "typing" "" [py_list] (Some typing_GenericMeta) [].

Definition typing_Union : pyclass :=
  MkClass "Union" "typing" "Union type; Union[X, Y] means either X or Y."
    [py_object] (Some typing_GenericMeta) [].

(** A tester and a table of the expected shape: the [typing] attributes are
    the classes defined by the [typing] module, and [typing.List] originates
    from [list]. *)
Definition sample_is_hint_pep_typing (hint : pyobj) : bool :=
  match hint with
  | PyClass c => String.eqb (cls_module c) "typing"
  | _ => false
  end.

Definition sample_TYPING_ATTR_TO_TYPE_ORIGIN (key : pyobj) : option pyclass :=
  match key with
  | PyClass c => if pyclass_eqb c typing_List then Some py_list else None
  | _ => None
  end.

(** A module-name getter of the expected shape. *)
Definition sample_get_object_class_module_name_or_none (obj : pyobj)
  : option string :=
  Some (cls_module match obj with
                   | PyClass c => c
                   | _ => class_of obj
                   end).

(** The objects weak references can be made to, among the modelled ones:
    classes and instances of user-defined classes; not [None], integers,
    strings, lists and tuples. *)
Definition sample_weakly_referenceable (o : pyobj) : bool :=
  match o with
  | PyClass _ => true
  | PyInstance _ _ => true
  | _ => false
  end.

(** A user-defined class deriving from [list]. *)
Definition sample_list_subclass : pyclass :=
  MkClass "Items" "__main__" "" [py_list] None [].

(** What [test_beartype.py] asserts of the culprits of a violation: there is
    a first culprit, which is the failing value itself or, when no weak
    reference to that value can be made, its non-empty textual
    representation; every later culprit is distinct from the failing value
    and is the culprit of a sub-value of it. *)
Definition culprits_as_tested (weakly_referenceable : pyobj -> bool)
    (pith : pyobj) (culprits : list pyobj) : Prop :=
  exists first rest,
    culprits = first :: rest
    /\ (weakly_referenceable pith = true -> first = pith)
    /\ (weakly_referenceable pith = false ->
        exists text,
          first = PyStr text /\ text = py_repr pith /\ text <> "")
    /\ Forall (fun culprit =>
                 culprit <> pith
                 /\ exists x, subvalue x pith
                              /\ culprit = culprit_of weakly_referenceable x)
         rest.

(** The built-in classes defined above. *)
Definition builtin_classes : list pyclass :=
  [ py_object; py_type; py_NoneType; py_int; py_str; py_list; py_tuple;
    py_BaseException; py_Exception; py_TypeError; py_AttributeError;
    py_AssertionError; abc_ABCMeta ].

(** The classes defined in this file that are no metaclasses. *)
Definition plain_classes : list pyclass :=
  [ py_object; py_NoneType; py_int; py_str; py_list; py_tuple;
    py_BaseException; py_Exception; py_TypeError; py_AttributeError;
    py_AssertionError; Iota; UnavailableType; typing_List; typing_Union;
    sample_list_subclass ] ++ roarexc_classes.

(* ---------------------------------------------------------------------- *)
(** ** Induction principles and tests used by the proofs *)
(* ---------------------------------------------------------------------- *)

(** Induction over a class through its bases, its metaclass keyword and the
    exceptions its special methods raise. *)
Section pyclass_induction.

Variable P : pyclass -> Prop.
Variable Q : member -> Prop.
Hypothesis P_class : forall n mo d bs m body,
    Forall P bs ->
    match m with Some k => P k | None => True end ->
    Forall (fun kv : string * member => Q (snd kv)) body ->
    P (MkClass n mo d bs m body).
Hypothesis Q_def : Q Def.
Hypothesis Q_abstract : Q AbstractDef.
Hypothesis Q_returning : forall b, Q (DefReturning b).
Hypothesis Q_raising : forall exc, P exc -> Q (DefRaising exc).

Fixpoint pyclass_nested_ind (c : pyclass) : P c :=
  match c with
  | MkClass n mo d bs m body =>
      @P_class n mo d bs m body
        ((fix bases_ok (l : list pyclass) : Forall P l :=
            match l with
            | [] => Forall_nil P
            | x :: rest =>
                @Forall_cons _ P x rest (pyclass_nested_ind x) (bases_ok rest)
            end) bs)
        (match m as m0 return match m0 with Some k => P k | None => True end
         with
         | Some k => pyclass_nested_ind k
         | None => I
         end)
        ((fix body_ok (l : list (string * member))
            : Forall (fun kv : string * member => Q (snd kv)) l :=
            match l with
            | [] => Forall_nil _
            | kv :: rest =>
                @Forall_cons _ _ kv rest (member_nested_ind (snd kv))
                  (body_ok rest)
            end) body)
  end
with member_nested_ind (m : member) : Q m :=
  match m with
  | Def => Q_def
  | AbstractDef => Q_abstract
  | DefReturning b => Q_returning b
  | DefRaising exc => @Q_raising exc (pyclass_nested_ind exc)
  end.

End pyclass_induction.

(** Induction over a hint through the alternatives of a union. *)
Section hint_induction.

Variable P : hint -> Prop.
Hypothesis P_class : forall cls, P (HintClass cls).
Hypothesis P_union : forall alts, Forall P alts -> P (HintUnion alts).
Hypothesis P_sequence :
  forall origin elem, P elem -> P (HintSequence origin elem).
Hypothesis P_literal : forall allowed, P (HintLiteral allowed).
Hypothesis P_annotated :
  forall base validator, P base -> P (HintAnnotated base validator).

Fixpoint hint_nested_ind (h : hint) : P h :=
  match h with
  | HintClass cls => P_class cls
  | HintUnion alts =>
      P_union alts
        ((fix alts_ok (l : list hint) : Forall P l :=
            match l with
            | [] => Forall_nil P
            | a :: rest =>
                @Forall_cons _ P a rest (hint_nested_ind a) (alts_ok rest)
            end) alts)
  | HintSequence origin elem => P_sequence origin elem (hint_nested_ind elem)
  | HintLiteral allowed => P_literal allowed
  | HintAnnotated base validator =>
      P_annotated base validator (hint_nested_ind base)
  end.

End hint_induction.

Fixpoint distinct_strings (l : list string) : bool :=
  match l with
  | [] => true
  | s :: rest => negb (existsb (String.eqb s) rest) && distinct_strings rest
  end.

(** What one class statement of the module amounts to, as a test: one base,
    which is [Exception] for the root and an earlier class of the module for
    the others; the metaclass [ABCMeta]; [BaseException] among the
    ancestors; the [__init__] of the root; no abstract method. *)
Definition roarexc_class_ok (c : pyclass) : bool :=
  match cls_bases c with
  | [parent] =>
      if pyclass_eqb c BeartypeException then pyclass_eqb parent py_Exception
      else mem_class parent roarexc_classes && negb (pyclass_eqb parent c)
  | _ => false
  end
  && in_mro BeartypeException c
  && pyclass_eqb (metaclass_of c) abc_ABCMeta
  && in_mro py_BaseException c
  && match class_getattr c "__init__" with
     | Some (owner, Def) => pyclass_eqb owner BeartypeException
     | _ => false
     end
  && match abstractmethods c with [] => true | _ :: _ => false end.

(** Splits a passed test into its conjuncts. *)
Ltac split_ok H :=
  unfold roarexc_class_ok in H;
  repeat (apply andb_prop in H;
          let H' := fresh "Hok" in destruct H as [H H']).

(** The classes of the module the desynchronization exception derives
    from, itself included. *)
Definition desynchronization_ancestry : list pyclass :=
  [ _BeartypeCallHintPepRaiseDesynchronizationException;
    _BeartypeCallHintPepRaiseException;
    _BeartypeCallHintRaiseException;
    _BeartypeUtilException;
    BeartypeException ].

(* ---------------------------------------------------------------------- *)
(** ** beartype/_util/utilobject.py: the other getters and testers *)
(* ---------------------------------------------------------------------- *)

(** [get_object_class_basename(obj)]. *)
Definition get_object_class_basename (obj : pyobj) : outcome string :=
  (* return get_object_class_unless_class(obj).__name__ *)
  getattr___name__ (get_object_class_unless_class obj).

Section utilobject_classname.

(** [beartype._util.py.utilpymodule.get_object_class_module_name_or_none],
    as for [get_object_name]. *)
Variable get_object_class_module_name_or_none : pyobj -> option string.

(** [get_object_classname(obj)]. *)
Definition get_object_classname (obj : pyobj) : outcome string :=
  (* cls = get_object_class_unless_class(obj) *)
  let cls := get_object_class_unless_class obj in
  (* cls_basename = get_object_class_basename(cls) *)
  match get_object_class_basename cls with
  | Raise exc => Raise exc
  | Return cls_basename =>
      (* cls_module_name = get_object_class_module_name_or_none(cls) *)
      let cls_module_name := get_object_class_module_name_or_none cls in
      Return
        match cls_module_name with
        | Some module_name =>
            (* f'{cls_module_name}.{cls_basename}' *)
            (module_name ++ "." ++ cls_basename)%string
        | None => cls_basename
        end
  end.

End utilobject_classname.

Section utilobject_hashable.

(** The builtin [hash]: the integer it returns for the object, or the
    exception the [__hash__] of the object raises. *)
Variable builtin_hash : pyobj -> outcome Z.

(** [is_object_hashable(obj)]. *)
Definition is_object_hashable (obj : pyobj) : outcome bool :=
  (* try: hash(obj) *)
  match builtin_hash obj with
  | Raise exc =>
      (* except Exception: return False
         (an exception of another class is not caught) *)
      if in_mro py_Exception (class_of exc) then Return false
      else Raise exc
  | Return _ =>
      (* return True *)
      Return true
  end.

End utilobject_hashable.

(** The classes whose metaclass resolves [__subclasscheck__] to the one of
    [type]. *)
Definition keeps_type_subclasscheck (c : pyclass) : Prop :=
  class_getattr (metaclass_of c) "__subclasscheck__" = Some (py_type, Def).

(** The number of class statements in the ancestry of a class, each counted
    once per path to it. *)
Fixpoint ancestry_size (c : pyclass) : nat :=
  match c with
  | MkClass _ _ _ bases _ _ =>
      S ((fix sum (l : list pyclass) : nat :=
            match l with
            | [] => 0
            | b :: rest => ancestry_size b + sum rest
            end) bases)
  end.

(** The classes of the module whose name is private, that is, starts with
    an underscore. *)
Definition is_private (c : pyclass) : bool :=
  string_prefix "_" (cls_name c).

(** Two more built-in exception classes: one deriving from [Exception], one
    deriving from [BaseException] only. *)
Definition py_ValueError : pyclass :=
  MkClass "ValueError" "builtins" "Inappropriate argument value."
    [py_Exception] None [].
Definition py_KeyboardInterrupt : pyclass :=
  MkClass "KeyboardInterrupt" "builtins" "Program interrupted by user."
    [py_BaseException] None [].

(** The class of the comment of [is_object_hashable], whose [__hash__]
    raises [ValueError], and one whose [__hash__] raises
    [KeyboardInterrupt]. *)
Definition HashUmUp : pyclass :=
  MkClass "HashUmUp" "__main__" "" [py_object] None
    [("__hash__", DefRaising py_ValueError)].
Definition sample_interrupted_hash : pyclass :=
  MkClass "Interrupted" "__main__" "" [py_object] None
    [("__hash__", DefRaising py_KeyboardInterrupt)].

(** A [hash] of the expected shape on the modelled objects: a list is
    unhashable, a tuple hashes its items in order, an instance is hashed by
    the [__hash__] its class resolves to, and the other objects hash to an
    integer. *)
Fixpoint sample_hash (o : pyobj) : outcome Z :=
  match o with
  | PyInt z => Return z
  | PyList _ =>
      Raise (PyInstance py_TypeError [PyStr "unhashable type: 'list'"])
  | PyTuple items =>
      (fix hash_items (l : list pyobj) : outcome Z :=
         match l with
         | [] => Return 0%Z
         | x :: rest =>
             match sample_hash x with
             | Raise exc => Raise exc
             | Return h =>
                 match hash_items rest with
                 | Raise exc => Raise exc
                 | Return hs => Return (h + 31 * hs)%Z
                 end
             end
         end) items
  | PyInstance c _ =>
      match class_getattr c "__hash__" with
      | Some (_, DefRaising exc) => Raise (PyInstance exc [])
      | _ => Return 0%Z
      end
  | _ => Return 0%Z
  end.

(** A [repr] of the expected shape on the modelled objects: the
    [__repr__] the class of the object resolves to when that one raises, and
    the built-in representation otherwise. *)
Definition sample_repr (o : pyobj) : outcome string :=
  match class_getattr (class_of o) "__repr__" with
  | Some (_, DefRaising exc) => Raise (PyInstance exc [])
  | _ => Return (py_repr o)
  end.

(** A class whose [__repr__] raises [ValueError]. *)
Definition sample_unprintable : pyclass :=
  MkClass "Unprintable" "__main__" "" [py_object] None
    [("__repr__", DefRaising py_ValueError)].

(** [typing.SupportsInt], a [typing] attribute that is an
    [isinstance]-able class, and a table that gives it as its own origin. *)
Definition typing_SupportsInt : pyclass :=
  MkClass "SupportsInt" "typing"
    "An ABC with one abstract method __int__." [py_object]
    (Some abc_ABCMeta) [("__int__", AbstractDef)].

Definition selfmapping_TYPING_ATTR_TO_TYPE_ORIGIN (key : pyobj)
  : option pyclass :=
  match key with
  | PyClass c =>
      if pyclass_eqb c typing_SupportsInt then Some typing_SupportsInt
      else None
  | _ => None
  end.

(* ====================================================================== *)
(** * Properties *)
(* ====================================================================== *)

(* ---------------------------------------------------------------------- *)
(** ** Identity of class objects *)
(* ---------------------------------------------------------------------- *)

Lemma pyclass_eqb_true_eq : forall a b, pyclass_eqb a b = true -> a = b.
Proof.
  intro a.
  apply (@pyclass_nested_ind
           (fun a => forall b, pyclass_eqb a b = true -> a = b)
           (fun m => forall m', member_eqb m m' = true -> m = m')).
  - intros n mo d bs m body IHbs IHm IHbody [n' mo' d' bs' m' body'] H.
    simpl in H.
    repeat (apply andb_prop in H; destruct H as [H ?]).
    apply String.eqb_eq in H. subst n'.
    match goal with E : String.eqb mo _ = true |- _ =>
      apply String.eqb_eq in E; subst mo' end.
    match goal with E : String.eqb d _ = true |- _ =>
      apply String.eqb_eq in E; subst d' end.
    assert (Ebs : bs = bs').
    { match goal with E : _ bs bs' = true |- _ => revert E end.
      clear - IHbs. revert bs'.
      induction IHbs as [|x xs Hx _ IH]; intros [|y ys] E;
        try discriminate; [reflexivity|].
      apply andb_prop in E. destruct E as [E1 E2].
      f_equal; [apply Hx; exact E1 | apply IH; exact E2]. }
    assert (Em : m = m').
    { destruct m as [k|], m' as [k'|]; try discriminate; [|reflexivity].
      f_equal. apply IHm. assumption. }
    assert (Ebody : body = body').
    { match goal with E : _ body body' = true |- _ => revert E end.
      clear - IHbody. revert body'.
      induction IHbody as [|[k v] xs Hx _ IH]; intros [|[k' v'] ys] E;
        try discriminate; [reflexivity|].
      apply andb_prop in E. destruct E as [E E3].
      apply andb_prop in E. destruct E as [E1 E2].
      apply String.eqb_eq in E1. subst k'.
      simpl in Hx. rewrite (Hx v' E2).
      f_equal. apply IH. exact E3. }
    subst. reflexivity.
  - intros [] H; try discriminate; reflexivity.
  - intros [] H; try discriminate; reflexivity.
  - intros b [] H; try discriminate. simpl in H.
    apply Bool.eqb_prop in H. subst. reflexivity.
  - intros exc IH [] H; try discriminate. simpl in H.
    f_equal. apply IH. exact H.
Qed.

Lemma pyclass_eqb_refl : forall a, pyclass_eqb a a = true.
Proof.
  apply (@pyclass_nested_ind
           (fun a => pyclass_eqb a a = true)
           (fun m => member_eqb m m = true)).
  - intros n mo d bs m body IHbs IHm IHbody. simpl.
    rewrite !String.eqb_refl. simpl.
    assert (Ebs : (fix bases_eqb (xs ys : list pyclass) {struct xs} : bool :=
                     match xs, ys with
                     | [], [] => true
                     | x :: xs', y :: ys' => pyclass_eqb x y && bases_eqb xs' ys'
                     | _, _ => false
                     end) bs bs = true).
    { induction IHbs as [|x xs Hx _ IH]; [reflexivity|].
      rewrite Hx, IH. reflexivity. }
    rewrite Ebs. simpl.
    assert (Em : match m with
                 | Some x => match m with Some y => pyclass_eqb x y
                                     | None => false end
                 | None => match m with Some _ => false | None => true end
                 end = true).
    { destruct m; [exact IHm | reflexivity]. }
    rewrite Em. simpl.
    induction IHbody as [|[k v] xs Hx _ IH]; [reflexivity|].
    simpl in Hx. rewrite String.eqb_refl, Hx, IH. reflexivity.
  - reflexivity.
  - reflexivity.
  - intros []; reflexivity.
  - intros exc IH. exact IH.
Qed.

Lemma pyclass_eqb_eq : forall a b, pyclass_eqb a b = true <-> a = b.
Proof.
  intros a b. split.
  - apply pyclass_eqb_true_eq.
  - intros ->. apply pyclass_eqb_refl.
Qed.

Lemma mem_class_In : forall c l, mem_class c l = true <-> In c l.
Proof.
  intros c l. unfold mem_class. rewrite existsb_exists. split.
  - intros [x [Hin E]]. apply pyclass_eqb_eq in E. subst. exact Hin.
  - intros Hin. exists c. split; [exact Hin | apply pyclass_eqb_refl].
Qed.

(** [isinstance(obj, type)] is the test of [type] against the MRO of the
    class of the object: every class of this file, metaclasses included, has
    a metaclass deriving from [type], and the values that are no classes
    have a class that does not derive from it. *)
Lemma isinstance_type_is_the_mro_test :
  (forall c, In c (builtin_classes ++ plain_classes
                   ++ [UnavailableTypeMeta; typing_GenericMeta]) ->
             isinstance_of (PyClass c) py_type = isinstance_type (PyClass c))
  /\ (forall c state, In c plain_classes ->
        isinstance_of (PyInstance c state) py_type
        = isinstance_type (PyInstance c state))
  /\ (forall o, (forall c, o <> PyClass c) ->
                (forall c state, o <> PyInstance c state) ->
                isinstance_of o py_type = isinstance_type o).
Proof.
  split; [|split].
  - intros c Hin. simpl isinstance_type.
    assert (H : forallb (fun k => isinstance_of (PyClass k) py_type)
                  (builtin_classes ++ plain_classes
                   ++ [UnavailableTypeMeta; typing_GenericMeta]) = true)
      by (vm_compute; reflexivity).
    exact (proj1 (forallb_forall _ _) H c Hin).
  - intros c state Hin. simpl.
    assert (H : forallb (fun k => negb (in_mro py_type k)) plain_classes
                = true)
      by (vm_compute; reflexivity).
    apply negb_true_iff. exact (proj1 (forallb_forall _ _) H c Hin).
  - intros o Hclass Hinstance.
    destruct o as [| | | | | c | c state]; try reflexivity.
    + exfalso. exact (Hclass c eq_refl).
    + exfalso. exact (Hinstance c state eq_refl).
Qed.

(* ---------------------------------------------------------------------- *)
(** ** The exception hierarchy *)
(* ---------------------------------------------------------------------- *)

Lemma distinct_strings_NoDup : forall l, distinct_strings l = true -> NoDup l.
Proof.
  induction l as [|s rest IH]; intro H; [constructor|].
  simpl in H. apply andb_prop in H. destruct H as [Hnot Hrest].
  constructor; [|apply IH; exact Hrest].
  intro Hin. apply negb_true_iff in Hnot.
  assert (E : existsb (String.eqb s) rest = true).
  { apply existsb_exists. exists s. split; [exact Hin | apply String.eqb_refl]. }
  congruence.
Qed.

Lemma roarexc_classes_ok : forallb roarexc_class_ok roarexc_classes = true.
Proof. vm_compute. reflexivity. Qed.

Lemma roarexc_class_ok_In :
  forall c, In c roarexc_classes -> roarexc_class_ok c = true.
Proof.
  intros c Hin.
  exact (proj1 (forallb_forall roarexc_class_ok roarexc_classes)
           roarexc_classes_ok c Hin).
Qed.

(** [issubclass] against a class of the module is the MRO test: the
    metaclass of every such class is [ABCMeta], which resolves
    [__subclasscheck__] to the one of [type]. *)
Lemma issubclass_roarexc :
  forall sub cls, In cls roarexc_classes ->
    issubclass (PyClass sub) (PyClass cls) = Return (in_mro cls sub).
Proof.
  intros sub cls Hin.
  pose proof (roarexc_class_ok_In cls Hin) as H. split_ok H.
  match goal with
  | E : pyclass_eqb (metaclass_of cls) abc_ABCMeta = true |- _ =>
      apply pyclass_eqb_eq in E; unfold issubclass; rewrite E
  end.
  reflexivity.
Qed.

(** Calling a class of the module with one argument runs
    [BaseException.__new__] and [BeartypeException.__init__]. *)
Lemma call_class_roarexc :
  forall c, In c roarexc_classes ->
    forall message st,
      call_class c [message] st
      = (Return (PyInstance c [message]), (c, "beartype.roar") :: st).
Proof.
  intros c Hin message st.
  pose proof (roarexc_class_ok_In c Hin) as H. split_ok H.
  unfold call_class, bind, lift, class_new.
  match goal with
  | E : in_mro py_BaseException c = true |- _ => rewrite E
  end.
  destruct (class_getattr c "__init__") as [[owner [| | |]]|];
    try discriminate.
  match goal with
  | E : pyclass_eqb owner BeartypeException = true |- _ => rewrite E
  end.
  reflexivity.
Qed.

(** C4.  The exception taxonomy is a tree rooted at [BeartypeException]: the
    module defines the root, its classes are pairwise distinct, every class
    it defines is a subclass of the root (the root of itself), and every
    class has exactly one base, which for the root is the built-in
    [Exception], outside the taxonomy, and for every other class is another
    class of the taxonomy. *)
Theorem roarexc_taxonomy_is_tree :
  In BeartypeException roarexc_classes
  /\ NoDup (map cls_name roarexc_classes)
  /\ ~ In py_Exception roarexc_classes
  /\ forall c, In c roarexc_classes ->
       issubclass (PyClass c) (PyClass BeartypeException) = Return true
       /\ exists parent,
            cls_bases c = [parent]
            /\ (c = BeartypeException -> parent = py_Exception)
            /\ (c <> BeartypeException ->
                In parent roarexc_classes /\ parent <> c).
Proof.
  assert (Hroot : In BeartypeException roarexc_classes) by (left; reflexivity).
  split; [exact Hroot|].
  split; [apply distinct_strings_NoDup; vm_compute; reflexivity|].
  split.
  { intro Hin. apply mem_class_In in Hin. vm_compute in Hin. discriminate. }
  intros c Hin.
  pose proof (roarexc_class_ok_In c Hin) as H. split_ok H.
  split.
  - rewrite (issubclass_roarexc c BeartypeException Hroot). f_equal. assumption.
  - destruct (cls_bases c) as [|parent [|]]; try discriminate.
    exists parent. split; [reflexivity|].
    destruct (pyclass_eqb c BeartypeException) eqn:Eroot.
    + apply pyclass_eqb_eq in Eroot. split.
      * intros _. apply pyclass_eqb_eq. exact H.
      * intro Hne. contradiction.
    + split.
      * intro E. apply pyclass_eqb_eq in E. congruence.
      * intros _. apply andb_prop in H. destruct H as [Hmem Hne].
        split; [apply mem_class_In; exact Hmem|].
        intro E. apply negb_true_iff in Hne.
        apply pyclass_eqb_eq in E. congruence.
Qed.

Lemma desynchronization_classes_checked :
  forallb
    (fun kind =>
       Bool.eqb (in_mro kind _BeartypeCallHintPepRaiseDesynchronizationException)
                (mem_class kind desynchronization_ancestry)
       && negb (in_mro BeartypeCallException kind
                && in_mro kind
                     _BeartypeCallHintPepRaiseDesynchronizationException))
    roarexc_classes = true.
Proof. vm_compute. reflexivity. Qed.

(** C3.  The desynchronization exception is an internal kind and no
    violation: it is a subclass of [_BeartypeUtilException]; it is not a
    subclass of [BeartypeCallHintViolation], nor of any call-time kind (any
    class of the taxonomy deriving from [BeartypeCallException]); among the
    classes of the taxonomy it is a subclass of exactly the five classes of
    its own branch; and its name is private (it starts with an
    underscore). *)
Theorem desynchronization_is_internal_only :
  issubclass (PyClass _BeartypeCallHintPepRaiseDesynchronizationException)
    (PyClass _BeartypeUtilException) = Return true
  /\ issubclass (PyClass _BeartypeCallHintPepRaiseDesynchronizationException)
       (PyClass BeartypeCallHintViolation) = Return false
  /\ (forall kind, In kind roarexc_classes ->
        issubclass (PyClass kind) (PyClass BeartypeCallException) = Return true ->
        issubclass (PyClass _BeartypeCallHintPepRaiseDesynchronizationException)
          (PyClass kind) = Return false)
  /\ (forall kind, In kind roarexc_classes ->
        (issubclass (PyClass _BeartypeCallHintPepRaiseDesynchronizationException)
           (PyClass kind) = Return true
         <-> In kind desynchronization_ancestry))
  /\ String.get 0 (cls_name _BeartypeCallHintPepRaiseDesynchronizationException)
     = Some "_"%char.
Proof.
  assert (Hcall : In BeartypeCallException roarexc_classes)
    by (apply mem_class_In; vm_compute; reflexivity).
  assert (Hchecked : forall kind, In kind roarexc_classes ->
            in_mro kind _BeartypeCallHintPepRaiseDesynchronizationException
            = mem_class kind desynchronization_ancestry
            /\ (in_mro BeartypeCallException kind = true ->
                in_mro kind _BeartypeCallHintPepRaiseDesynchronizationException
                = false)).
  { intros kind Hin.
    pose proof (proj1 (forallb_forall _ _) desynchronization_classes_checked
                  kind Hin) as H.
    simpl in H. apply andb_prop in H. destruct H as [H1 H2].
    apply Bool.eqb_prop in H1. split; [exact H1|].
    intro Hc. rewrite Hc in H2. simpl in H2.
    apply negb_true_iff in H2. exact H2. }
  split; [|split; [|split; [|split]]].
  - rewrite issubclass_roarexc
      by (apply mem_class_In; vm_compute; reflexivity).
    vm_compute. reflexivity.
  - rewrite issubclass_roarexc
      by (apply mem_class_In; vm_compute; reflexivity).
    vm_compute. reflexivity.
  - intros kind Hin Hsub.
    rewrite (issubclass_roarexc _ _ Hcall) in Hsub.
    rewrite (issubclass_roarexc _ _ Hin).
    f_equal. apply (Hchecked kind Hin). congruence.
  - intros kind Hin. rewrite (issubclass_roarexc _ _ Hin).
    rewrite (proj1 (Hchecked kind Hin)). rewrite <- mem_class_In.
    split; congruence.
  - reflexivity.
Qed.

(** C5 does not hold as stated.  [BeartypeDecorHintException] is
    documented as an abstract base class and is no leaf of the taxonomy, and
    calling it with a message returns an instance of it; indeed
    [get_hint_type_origin] raises such an instance for a hint without
    origin. *)
Lemma abstract_branch_is_instantiated :
  documented_abstract BeartypeDecorHintException = true
  /\ is_leaf BeartypeDecorHintException = false
  /\ fst (call_class BeartypeDecorHintException [PyStr "message"] [])
     = Return (PyInstance BeartypeDecorHintException [PyStr "message"])
  /\ fst (get_hint_type_origin (fun _ => false) (fun _ => None)
            (fun o => Return (py_repr o)) PyNone [])
     = Raise (PyInstance BeartypeDecorHintException
                [PyStr (origin_error_message (py_repr PyNone))]).
Proof.
  split; [|split; [|split]]; vm_compute; reflexivity.
Qed.

(** C5, amended.  The abstract branches are abstract by documentation only:
    no class of the taxonomy has an abstract method, and every class of the
    taxonomy, the root and the documented abstract branches included, is
    constructible from a message: the call returns an instance of the class
    holding the message, and rebinds the [__module__] of the class to
    [beartype.roar]. *)
Theorem roarexc_classes_all_constructible :
  forall c, In c roarexc_classes ->
    abstractmethods c = []
    /\ forall message st,
         call_class c [message] st
         = (Return (PyInstance c [message]), (c, "beartype.roar") :: st)
         /\ getattr___module__ c (snd (call_class c [message] st))
            = "beartype.roar".
Proof.
  intros c Hin. split.
  - pose proof (roarexc_class_ok_In c Hin) as H. split_ok H.
    destruct (abstractmethods c); [reflexivity | discriminate].
  - intros message st. rewrite (call_class_roarexc c Hin).
    split; [reflexivity|].
    unfold getattr___module__. simpl. rewrite pyclass_eqb_refl. reflexivity.
Qed.

(** The root of the taxonomy, documented as abstract, is one of the classes
    the theorem covers. *)
Lemma roarexc_classes_all_constructible_witness :
  In BeartypeException roarexc_classes
  /\ abstractmethods BeartypeException = []
  /\ forall message st,
       call_class BeartypeException [message] st
       = (Return (PyInstance BeartypeException [message]),
          (BeartypeException, "beartype.roar") :: st)
       /\ getattr___module__ BeartypeException
            (snd (call_class BeartypeException [message] st))
          = "beartype.roar".
Proof.
  split.
  - left. reflexivity.
  - apply (roarexc_classes_all_constructible BeartypeException).
    left. reflexivity.
Defined.

(* ---------------------------------------------------------------------- *)
(** ** beartype/_util/utilobject.py *)
(* ---------------------------------------------------------------------- *)

(** C8 does not hold as stated.  [UnavailableType] is a class and so is
    [int], and [is_object_subclass(int, UnavailableType)] raises the
    exception of the subclass check of [UnavailableType]. *)
Lemma is_object_subclass_raises :
  isinstance_type (PyClass UnavailableType) = true
  /\ isinstance_type (PyClass py_int) = true
  /\ is_object_subclass (PyClass py_int) (PyClass UnavailableType)
     = Raise (PyInstance BeartypeCallUnavailableTypeException []).
Proof.
  split; [reflexivity|]. split; [reflexivity|].
  unfold is_object_subclass. simpl negb. cbv iota.
  vm_compute. reflexivity.
Qed.

(** C8, amended.  For every object [obj] and every class [cls]: when [obj]
    is not a class the result is [False] and nothing is raised; when [obj]
    is a class the call is [issubclass(obj, cls)], with its answer and with
    its exception when the subclass check of [cls] raises; and when the
    metaclass of [cls] resolves [__subclasscheck__] to the one of [type],
    nothing is raised and the result is [True] exactly when [obj] is a
    class with [cls] in its MRO. *)
Theorem is_object_subclass_spec :
  forall obj cls, isinstance_type cls = true ->
    (isinstance_type obj = false -> is_object_subclass obj cls = Return false)
    /\ (isinstance_type obj = true ->
        is_object_subclass obj cls = issubclass obj cls)
    /\ (forall c, cls = PyClass c ->
          class_getattr (metaclass_of c) "__subclasscheck__"
          = Some (py_type, Def) ->
          exists answer,
            is_object_subclass obj cls = Return answer
            /\ (answer = true <->
                exists s, obj = PyClass s /\ in_mro c s = true)).
Proof.
  intros obj cls Hcls. unfold is_object_subclass. rewrite Hcls. simpl negb.
  cbv iota. split; [|split].
  - intros Hobj. rewrite Hobj. reflexivity.
  - intros Hobj. rewrite Hobj. reflexivity.
  - intros c -> Hcheck.
    destruct (isinstance_type obj) eqn:Hobj.
    + destruct obj as [| | | | | s |]; try discriminate.
      exists (in_mro c s). unfold issubclass. rewrite Hcheck.
      split; [reflexivity|]. split.
      * intro H. exists s. split; [reflexivity | exact H].
      * intros [s' [E H]]. injection E as ->. exact H.
    + exists false. split; [reflexivity|]. split; [discriminate|].
      intros [s [-> _]]. discriminate.
Qed.

(** An instance is no subclass of [int]; for a class the call is that of
    [issubclass]; and against [BeartypeException], whose metaclass keeps the
    check of [type], a class of the taxonomy is a subclass. *)
Lemma is_object_subclass_spec_witness :
  isinstance_type (PyClass py_int) = true
  /\ is_object_subclass SENTINEL (PyClass py_int) = Return false
  /\ is_object_subclass (PyClass BeartypeConfException) (PyClass py_int)
     = issubclass (PyClass BeartypeConfException) (PyClass py_int)
  /\ exists answer,
       is_object_subclass (PyClass BeartypeConfException)
         (PyClass BeartypeException) = Return answer
       /\ (answer = true <->
           exists s, PyClass BeartypeConfException = PyClass s
                     /\ in_mro BeartypeException s = true).
Proof.
  split; [reflexivity|]. split; [|split].
  - exact (proj1 (is_object_subclass_spec SENTINEL (PyClass py_int) eq_refl)
             eq_refl).
  - exact (proj1 (proj2 (is_object_subclass_spec
                           (PyClass BeartypeConfException) (PyClass py_int)
                           eq_refl))
             eq_refl).
  - exact (proj2 (proj2 (is_object_subclass_spec
                           (PyClass BeartypeConfException)
                           (PyClass BeartypeException) eq_refl))
             BeartypeException eq_refl eq_refl).
Defined.

(** C9.  [get_object_class_unless_class] returns a class for every object,
    the object itself when it is a class and its type otherwise, and is
    idempotent. *)
Theorem get_object_class_unless_class_idempotent :
  forall obj,
    isinstance_type (get_object_class_unless_class obj) = true
    /\ get_object_class_unless_class (get_object_class_unless_class obj)
       = get_object_class_unless_class obj
    /\ (isinstance_type obj = true -> get_object_class_unless_class obj = obj)
    /\ (isinstance_type obj = false ->
        get_object_class_unless_class obj = builtin_type obj).
Proof.
  intro obj. unfold get_object_class_unless_class.
  destruct (isinstance_type obj) eqn:Hobj.
  - rewrite Hobj. repeat split; try assumption; try reflexivity.
    discriminate.
  - unfold builtin_type. simpl. repeat split; try reflexivity.
    discriminate.
Qed.

(** C10.  [get_object_name] returns the same result for every argument: it
    reads the [__name__] and the module name of the builtin class [object],
    not of its parameter, so the result is the name of [object], qualified
    by the module name the getter gives for [object]; in particular it
    raises nothing, the [AttributeError] of an argument without [__name__]
    included. *)
Theorem get_object_name_ignores_its_argument :
  forall get_object_class_module_name_or_none a b,
    get_object_name get_object_class_module_name_or_none a
    = get_object_name get_object_class_module_name_or_none b
    /\ get_object_name get_object_class_module_name_or_none a
       = Return match get_object_class_module_name_or_none (PyClass py_object)
                with
                | Some module_name => (module_name ++ ".object")%string
                | None => "object"
                end
    /\ forall exc,
         getattr___name__ a = Raise exc ->
         get_object_name get_object_class_module_name_or_none a <> Raise exc.
Proof.
  intros getter a b. unfold get_object_name. simpl.
  split; [reflexivity|]. split; [reflexivity|].
  intros exc _. discriminate.
Qed.

(** An object without [__name__], for which the documented behaviour is an
    [AttributeError], and the name [get_object_name] returns for it. *)
Example get_object_name_of_SENTINEL :
  (exists exc, getattr___name__ SENTINEL = Raise exc
               /\ class_of exc = py_AttributeError)
  /\ get_object_name sample_get_object_class_module_name_or_none SENTINEL
     = Return "builtins.object"
  /\ get_object_name sample_get_object_class_module_name_or_none
       (PyClass BeartypeException)
     = Return "builtins.object".
Proof.
  split; [|split]; try reflexivity.
  eexists. split; reflexivity.
Qed.

(* ---------------------------------------------------------------------- *)
(** ** beartype/_util/hint/utilhintget.py *)
(* ---------------------------------------------------------------------- *)

Section utilhintget_properties.

Variable is_hint_pep_typing : pyobj -> bool.
Variable TYPING_ATTR_TO_TYPE_ORIGIN : pyobj -> option pyclass.
Variable builtin_repr : pyobj -> outcome string.

Local Abbreviation origin_or_none :=
  (get_hint_type_origin_or_none is_hint_pep_typing
     TYPING_ATTR_TO_TYPE_ORIGIN).
Local Abbreviation origin :=
  (get_hint_type_origin is_hint_pep_typing TYPING_ATTR_TO_TYPE_ORIGIN
     builtin_repr).

(** The non-failing getter returns a class or [None]. *)
Lemma get_hint_type_origin_or_none_class_or_None :
  forall hint,
    origin_or_none hint = PyNone
    \/ exists c, origin_or_none hint = PyClass c.
Proof.
  intro hint. unfold get_hint_type_origin_or_none,
    TYPING_ATTR_TO_TYPE_ORIGIN_GET.
  destruct (is_hint_pep_typing hint).
  - destruct (TYPING_ATTR_TO_TYPE_ORIGIN hint) as [c|];
      [right; exists c; reflexivity | left; reflexivity].
  - destruct hint; simpl; try (left; reflexivity).
    right. eexists. reflexivity.
Qed.

(** C1, amended.  [get_hint_type_origin_or_none] returns the result of the
    mapping from [typing] attributes to origins (a class, or [None] when
    unmapped) when the hint is a [typing] attribute; else the hint itself
    when it is a class; else [None].  The [typing] test comes first: a
    [typing] attribute that is also a class gets the result of the mapping,
    and is returned itself exactly when the mapping sends it to itself. *)
Theorem get_hint_type_origin_or_none_cases :
  forall hint,
    (is_hint_pep_typing hint = true ->
     origin_or_none hint
     = match TYPING_ATTR_TO_TYPE_ORIGIN hint with
       | Some c => PyClass c
       | None => PyNone
       end)
    /\ (is_hint_pep_typing hint = false -> isinstance_type hint = true ->
        origin_or_none hint = hint)
    /\ (is_hint_pep_typing hint = false -> isinstance_type hint = false ->
        origin_or_none hint = PyNone)
    /\ (is_hint_pep_typing hint = true ->
        forall c, hint = PyClass c ->
          (origin_or_none hint = hint
           <-> TYPING_ATTR_TO_TYPE_ORIGIN hint = Some c)).
Proof.
  intro hint. unfold get_hint_type_origin_or_none,
    TYPING_ATTR_TO_TYPE_ORIGIN_GET.
  split; [|split; [|split]].
  - intros ->. reflexivity.
  - intros -> ->. reflexivity.
  - intros -> ->. reflexivity.
  - intros -> c ->.
    destruct (TYPING_ATTR_TO_TYPE_ORIGIN (PyClass c)) as [o|].
    + split.
      * intro H. injection H as ->. reflexivity.
      * intro H. injection H as ->. reflexivity.
    + split; discriminate.
Qed.

(** C2, amended.  [get_hint_type_origin] returns the class the non-failing
    getter returns, leaving every class attribute as it was, and returns
    nothing else; when the non-failing getter returns [None] it raises: an
    instance of [BeartypeDecorHintException], whose message holds the
    [repr] of the hint, when [repr] returns for the hint, and the exception
    [repr] raises for the hint otherwise, since the message is formatted
    before the exception is made.  So it returns [T] exactly when the
    non-failing getter returns the class [T], it raises exactly when that
    getter returns [None], and what it raises is the origin error or what
    [repr] raised. *)
Theorem get_hint_type_origin_agrees :
  forall hint st,
    ((exists c, origin_or_none hint = PyClass c
                /\ origin hint st = (Return (PyClass c), st))
     \/ (origin_or_none hint = PyNone
         /\ exists text,
              builtin_repr hint = Return text
              /\ origin hint st
                 = (Raise (PyInstance BeartypeDecorHintException
                             [PyStr (origin_error_message text)]),
                    (BeartypeDecorHintException, "beartype.roar") :: st))
     \/ (origin_or_none hint = PyNone
         /\ exists raised,
              builtin_repr hint = Raise raised
              /\ origin hint st = (Raise raised, st)))
    /\ (forall T, fst (origin hint st) = Return T
                  <-> origin_or_none hint = T /\ T <> PyNone)
    /\ ((exists exc, fst (origin hint st) = Raise exc)
        <-> origin_or_none hint = PyNone)
    /\ (forall exc, fst (origin hint st) = Raise exc ->
          (class_of exc = BeartypeDecorHintException
           /\ in_mro BeartypeDecorException (class_of exc) = true
           /\ exists text, builtin_repr hint = Return text)
          \/ builtin_repr hint = Raise exc).
Proof.
  intros hint st.
  assert (Hin : In BeartypeDecorHintException roarexc_classes)
    by (apply mem_class_In; vm_compute; reflexivity).
  assert (Hcases :
    (exists c, origin_or_none hint = PyClass c
               /\ origin hint st = (Return (PyClass c), st))
    \/ (origin_or_none hint = PyNone
        /\ exists text,
             builtin_repr hint = Return text
             /\ origin hint st
                = (Raise (PyInstance BeartypeDecorHintException
                            [PyStr (origin_error_message text)]),
                   (BeartypeDecorHintException, "beartype.roar") :: st))
    \/ (origin_or_none hint = PyNone
        /\ exists raised,
             builtin_repr hint = Raise raised
             /\ origin hint st = (Raise raised, st))).
  { unfold get_hint_type_origin.
    destruct (get_hint_type_origin_or_none_class_or_None hint)
      as [E | [c E]]; rewrite E; simpl.
    - right. unfold bind, lift.
      destruct (builtin_repr hint) as [text | raised] eqn:Erepr.
      + left. split; [reflexivity|]. exists text. split; [reflexivity|].
        rewrite (call_class_roarexc _ Hin). reflexivity.
      + right. split; [reflexivity|]. exists raised.
        split; reflexivity.
    - left. exists c. split; reflexivity. }
  split; [exact Hcases|].
  destruct Hcases as [[c [E Hrun]]
                     | [[E [text [Erepr Hrun]]]
                       | [E [raised [Erepr Hrun]]]]];
    rewrite Hrun, E; simpl.
  - split; [|split].
    + intro T. split.
      * intro H. injection H as <-. split; [reflexivity | discriminate].
      * intros [<- _]. reflexivity.
    + split; [intros [exc H]; discriminate | discriminate].
    + intros exc H. discriminate.
  - split; [|split].
    + intro T. split; [discriminate|]. intros [<- H]. contradiction.
    + split; [reflexivity|]. intros _. eexists. reflexivity.
    + intros exc H. injection H as <-. left.
      split; [reflexivity|]. split; [reflexivity|].
      exists text. exact Erepr.
  - split; [|split].
    + intro T. split; [discriminate|]. intros [<- H]. contradiction.
    + split; [reflexivity|]. intros _. eexists. reflexivity.
    + intros exc H. injection H as <-. right. exact Erepr.
Qed.

End utilhintget_properties.

(** C1 does not hold as stated.  With a table that gives
    [typing.SupportsInt] as its own origin, this [typing] attribute, which
    is a class, is mapped, and what it yields is itself. *)
Lemma typing_class_can_yield_itself :
  sample_is_hint_pep_typing (PyClass typing_SupportsInt) = true
  /\ isinstance_type (PyClass typing_SupportsInt) = true
  /\ selfmapping_TYPING_ATTR_TO_TYPE_ORIGIN (PyClass typing_SupportsInt)
     = Some typing_SupportsInt
  /\ get_hint_type_origin_or_none sample_is_hint_pep_typing
       selfmapping_TYPING_ATTR_TO_TYPE_ORIGIN (PyClass typing_SupportsInt)
     = PyClass typing_SupportsInt.
Proof.
  split; [reflexivity|]. split; [reflexivity|].
  split; vm_compute; reflexivity.
Qed.

(** [typing.List], a [typing] attribute that is also a class, yields [list],
    the origin the mapping gives, and not itself; [typing.Union], unmapped,
    yields [None]; the class [int] yields itself; an instance yields
    [None]. *)
Lemma get_hint_type_origin_or_none_cases_witness :
  get_hint_type_origin_or_none sample_is_hint_pep_typing
    sample_TYPING_ATTR_TO_TYPE_ORIGIN (PyClass typing_List)
  = PyClass py_list
  /\ get_hint_type_origin_or_none sample_is_hint_pep_typing
       sample_TYPING_ATTR_TO_TYPE_ORIGIN (PyClass typing_List)
     <> PyClass typing_List
  /\ get_hint_type_origin_or_none sample_is_hint_pep_typing
       sample_TYPING_ATTR_TO_TYPE_ORIGIN (PyClass typing_Union)
     = PyNone
  /\ get_hint_type_origin_or_none sample_is_hint_pep_typing
       sample_TYPING_ATTR_TO_TYPE_ORIGIN (PyClass py_int)
     = PyClass py_int
  /\ get_hint_type_origin_or_none sample_is_hint_pep_typing
       sample_TYPING_ATTR_TO_TYPE_ORIGIN SENTINEL
     = PyNone.
Proof.
  pose proof (get_hint_type_origin_or_none_cases sample_is_hint_pep_typing
                sample_TYPING_ATTR_TO_TYPE_ORIGIN) as H.
  split; [|split; [|split; [|split]]].
  - exact (proj1 (H (PyClass typing_List)) eq_refl).
  - intro E.
    apply (proj1 (proj2 (proj2 (proj2 (H (PyClass typing_List))))
                    eq_refl typing_List eq_refl)) in E.
    discriminate.
  - exact (proj1 (H (PyClass typing_Union)) eq_refl).
  - exact (proj1 (proj2 (H (PyClass py_int))) eq_refl eq_refl).
  - exact (proj1 (proj2 (proj2 (H SENTINEL))) eq_refl eq_refl).
Defined.

(** C2 does not hold as stated.  An instance of a class whose [__repr__]
    raises [ValueError] is no [typing] attribute and no class, so the
    non-failing getter returns [None] for it; [get_hint_type_origin] then
    raises that [ValueError], which is no [BeartypeDecorHintException] and
    no exception of the taxonomy at all. *)
Lemma origin_error_can_be_preempted :
  get_hint_type_origin_or_none sample_is_hint_pep_typing
    sample_TYPING_ATTR_TO_TYPE_ORIGIN (PyInstance sample_unprintable [])
  = PyNone
  /\ get_hint_type_origin sample_is_hint_pep_typing
       sample_TYPING_ATTR_TO_TYPE_ORIGIN sample_repr
       (PyInstance sample_unprintable []) []
     = (Raise (PyInstance py_ValueError []), [])
  /\ in_mro BeartypeDecorHintException py_ValueError = false
  /\ in_mro BeartypeException py_ValueError = false.
Proof.
  split; [reflexivity|]. split; [|split]; vm_compute; reflexivity.
Qed.

(* ---------------------------------------------------------------------- *)
(** ** The checking engine *)
(* ---------------------------------------------------------------------- *)

Lemma first_failing_None :
  forall blame items,
    first_failing blame items = None ->
    forall x, In x items -> blame x = None.
Proof.
  intros blame items. induction items as [|y rest IH]; intros H x Hin.
  - contradiction.
  - simpl in H. destruct (blame y) eqn:Ey; [discriminate|].
    destruct Hin as [<- | Hin]; [exact Ey | apply IH; assumption].
Qed.

Lemma first_failing_Some :
  forall blame items path,
    first_failing blame items = Some path ->
    exists x inner, path = x :: inner /\ In x items /\ blame x = Some inner.
Proof.
  intros blame items. induction items as [|y rest IH]; intros path H.
  - discriminate.
  - simpl in H. destruct (blame y) as [inner|] eqn:Ey.
    + injection H as <-. exists y, inner.
      split; [reflexivity|]. split; [left; reflexivity | exact Ey].
    + destruct (IH path H) as [x [inner [E [Hin Hx]]]].
      exists x, inner. split; [exact E|]. split; [right; exact Hin | exact Hx].
Qed.

Lemma check_any_satisfied :
  forall v alts,
    Forall (fun a => find_culprits a v = None ->
                     forall g, fst (check a v g) = true) alts ->
    existsb is_none (map (fun a => find_culprits a v) alts) = true ->
    forall g, fst (check_any (fun a g => check a v g) alts g) = true.
Proof.
  intros v alts IH. induction IH as [|a rest Ha _ IHrest]; intros Hsome g.
  - discriminate.
  - simpl in *. destruct (check a v g) as [ok g'] eqn:Ec.
    destruct ok; [reflexivity|].
    apply IHrest. apply orb_prop in Hsome. destruct Hsome as [Hnone | Hrest].
    + destruct (find_culprits a v) eqn:Ef; [discriminate|].
      specialize (Ha eq_refl g). rewrite Ec in Ha. discriminate.
    + exact Hrest.
Qed.

(** The sampled check accepts every value the exhaustive walk accepts,
    whatever indices are drawn. *)
Lemma satisfied_passes_check :
  forall h v, find_culprits h v = None -> forall g, fst (check h v g) = true.
Proof.
  intro h. induction h as [cls | alts IH | origin elem IH | allowed
                           | base validator IH] using hint_nested_ind;
    intros v Hnone g; simpl in *.
  - destruct (isinstance_of v cls); [reflexivity | discriminate].
  - destruct (existsb is_none (map (fun a => find_culprits a v) alts)) eqn:E;
      [|discriminate].
    apply check_any_satisfied; [|exact E].
    apply Forall_forall. intros a Hin.
    exact (proj1 (Forall_forall _ _) IH a Hin v).
  - destruct (isinstance_of v origin); [|discriminate].
    destruct (items_of v) as [|x0 rest] eqn:Eitems; [reflexivity|].
    destruct (draw g) as [i g'].
    assert (Hin : In (nth (i mod List.length (x0 :: rest)) (x0 :: rest) x0)
                     (x0 :: rest)).
    { apply nth_In. apply Nat.mod_upper_bound. discriminate. }
    apply IH. exact (first_failing_None _ _ Hnone _ Hin).
  - destruct (existsb (pyobj_eqb v) allowed); [reflexivity | discriminate].
  - destruct (find_culprits base v) eqn:Eb; [discriminate|].
    specialize (IH v Eb g).
    destruct (check base v g) as [ok g']. simpl in IH. subst ok.
    destruct (validator v); [reflexivity | discriminate].
Qed.

(** So the walk finds a failing part of every value the check rejects: the
    check and the diagnoser are never desynchronized. *)
Lemma rejected_has_culprits :
  forall h v g, fst (check h v g) = false ->
    exists path, find_culprits h v = Some path.
Proof.
  intros h v g Hfail. destruct (find_culprits h v) as [path|] eqn:E.
  - exists path. reflexivity.
  - rewrite (satisfied_passes_check h v E g) in Hfail. discriminate.
Qed.

(** What the walk blames below a value are sub-values of it. *)
Lemma find_culprits_subvalues :
  forall h v path, find_culprits h v = Some path ->
    Forall (fun x => subvalue x v) path.
Proof.
  intro h. induction h as [cls | alts IH | origin elem IH | allowed
                           | base validator IH] using hint_nested_ind;
    intros v path H; simpl in H.
  - destruct (isinstance_of v cls); [discriminate|].
    injection H as <-. constructor.
  - destruct (existsb is_none (map (fun a => find_culprits a v) alts));
      [discriminate|].
    injection H as <-. destruct IH as [|a rest Ha _]; [constructor|].
    simpl. destruct (find_culprits a v) as [p|] eqn:Ea; [|constructor].
    apply (Ha v p Ea).
  - destruct (isinstance_of v origin);
      [|injection H as <-; constructor].
    destruct (first_failing_Some _ _ _ H) as [x [inner [-> [Hin Hx]]]].
    constructor; [apply subvalue_item; exact Hin|].
    specialize (IH x inner Hx).
    apply Forall_forall. intros y Hy.
    apply subvalue_deeper with (y := x); [|exact Hin].
    exact (proj1 (Forall_forall _ _) IH y Hy).
  - destruct (existsb (pyobj_eqb v) allowed); [discriminate|].
    injection H as <-. constructor.
  - destruct (find_culprits base v) as [p|] eqn:Eb.
    + injection H as <-. apply (IH v p Eb).
    + destruct (validator v); [discriminate|].
      injection H as <-. constructor.
Qed.

Lemma item_is_smaller :
  forall x v, In x (items_of v) -> obj_size x < obj_size v.
Proof.
  assert (Hsum : forall (items : list pyobj) x, In x items ->
            obj_size x <=
            (fix sizes (xs : list pyobj) : nat :=
               match xs with
               | [] => 0
               | y :: rest => obj_size y + sizes rest
               end) items).
  { induction items as [|y rest IH]; intros x Hin; [contradiction|].
    destruct Hin as [<- | Hin]; [lia|].
    specialize (IH x Hin). lia. }
  intros x v Hin.
  destruct v as [| | | items | items | | c items]; simpl in Hin;
    try contradiction.
  - specialize (Hsum items x Hin). simpl. lia.
  - specialize (Hsum items x Hin). simpl. lia.
  - destruct (in_mro py_list c || in_mro py_tuple c); [|contradiction].
    specialize (Hsum items x Hin). simpl. lia.
Qed.

Lemma subvalue_is_smaller :
  forall x v, subvalue x v -> obj_size x < obj_size v.
Proof.
  intros x v H. induction H as [x v Hin | x y v _ IH Hin].
  - apply item_is_smaller. exact Hin.
  - pose proof (item_is_smaller y v Hin). lia.
Qed.

Lemma subvalue_of_container :
  forall x v, subvalue x v -> items_of v <> [].
Proof.
  intros x v H. destruct H as [x v Hin | x y v _ Hin];
    intro E; rewrite E in Hin; contradiction.
Qed.

Lemma append_nonempty_r :
  forall s t : string, t <> "" -> (s ++ t)%string <> "".
Proof.
  intros [|a s] t H; simpl; [exact H | discriminate].
Qed.

Lemma py_repr_nonempty : forall o, py_repr o <> "".
Proof.
  intros [| z | s | items | items | c | c state]; simpl; try discriminate.
  - unfold string_of_Z. destruct (Z.to_int z) as [d | d]; simpl;
      [destruct d; simpl; discriminate | discriminate].
  - destruct items as [|x [|y rest]]; discriminate.
  - destruct (in_mro py_BaseException c); [|discriminate].
    apply append_nonempty_r. discriminate.
Qed.

Lemma diagnose_rejected :
  forall weakly_referenceable h pith g,
    fst (check h pith g) = false ->
    exists v,
      diagnose weakly_referenceable h pith = Some v
      /\ viol_hint v = h
      /\ viol_pith v = pith
      /\ culprits_as_tested weakly_referenceable pith (viol_culprits v).
Proof.
  intros weak h pith g Hfail.
  destruct (rejected_has_culprits h pith g Hfail) as [path Hpath].
  unfold diagnose. rewrite Hpath. eexists. split; [reflexivity|].
  split; [reflexivity|]. split; [reflexivity|].
  simpl viol_culprits.
  exists (culprit_of weak pith), (map (culprit_of weak) path).
  split; [reflexivity|]. unfold culprit_of at 1 2.
  split; [intros ->; reflexivity|].
  split.
  { intros ->. exists (py_repr pith).
    split; [reflexivity|]. split; [reflexivity | apply py_repr_nonempty]. }
  apply Forall_forall. intros culprit Hin.
  apply in_map_iff in Hin. destruct Hin as [x [<- Hx]].
  pose proof (proj1 (Forall_forall _ _)
                (find_culprits_subvalues h pith path Hpath) x Hx) as Hsub.
  split; [|exists x; split; [exact Hsub | reflexivity]].
  unfold culprit_of. destruct (weak x).
  - intros ->. pose proof (subvalue_is_smaller _ _ Hsub). lia.
  - intros <-. apply (subvalue_of_container _ _ Hsub). reflexivity.
Qed.

(** C6.  Every failed check yields a violation, never the desynchronization
    fault, and the violation carries a non-empty sequence of culprits: the
    first is the failing value itself when it can be referenced weakly and
    its non-empty textual representation otherwise; each later culprit is
    (the culprit of) a sub-value of the failing value and is distinct from
    the failing value.  This holds of the diagnoser after a failed check
    and of the decorated callable, whose only outcomes are the value passed
    in and such a violation, of a kind deriving from
    [BeartypeCallHintViolation]. *)
Theorem violation_carries_culprits :
  forall weakly_referenceable h pith g,
    (fst (check h pith g) = false ->
     exists v,
       diagnose weakly_referenceable h pith = Some v
       /\ viol_hint v = h
       /\ viol_pith v = pith
       /\ culprits_as_tested weakly_referenceable pith (viol_culprits v))
    /\ match fst (beartype weakly_referenceable h func_untyped pith g) with
       | Passed value => value = pith
       | Violated kind v =>
           in_mro BeartypeCallHintViolation kind = true
           /\ viol_pith v = pith
           /\ culprits_as_tested weakly_referenceable pith (viol_culprits v)
       | Desynchronized _ => False
       end.
Proof.
  intros weak h pith g. split; [apply diagnose_rejected|].
  unfold beartype, func_untyped.
  destruct (check h pith g) as [ok_param g1] eqn:Eparam.
  destruct ok_param.
  - destruct (check h pith g1) as [ok_return g2] eqn:Ereturn.
    destruct ok_return; [reflexivity|].
    destruct (diagnose_rejected weak h pith g1) as [v [Hv [_ [Hpith Hculprits]]]];
      [rewrite Ereturn; reflexivity|].
    unfold report. rewrite Hv. simpl.
    split; [vm_compute; reflexivity|]. split; assumption.
  - destruct (diagnose_rejected weak h pith g) as [v [Hv [_ [Hpith Hculprits]]]];
      [rewrite Eparam; reflexivity|].
    unfold report. rewrite Hv. simpl.
    split; [vm_compute; reflexivity|]. split; assumption.
Qed.

(** A list with a string at the sampled index fails the check of a list of
    integers, and is diagnosed. *)
Lemma violation_carries_culprits_witness :
  fst (check (HintSequence py_list (HintClass py_int))
         (PyList [PyInt 1; PyStr "a"]) [1]) = false
  /\ exists v,
       diagnose sample_weakly_referenceable
         (HintSequence py_list (HintClass py_int))
         (PyList [PyInt 1; PyStr "a"]) = Some v
       /\ viol_hint v = HintSequence py_list (HintClass py_int)
       /\ viol_pith v = PyList [PyInt 1; PyStr "a"]
       /\ culprits_as_tested sample_weakly_referenceable
            (PyList [PyInt 1; PyStr "a"]) (viol_culprits v).
Proof.
  split; [reflexivity|].
  exact (proj1 (violation_carries_culprits sample_weakly_referenceable
                  (HintSequence py_list (HintClass py_int))
                  (PyList [PyInt 1; PyStr "a"]) [1])
           eq_refl).
Defined.

(** C7.  A value that satisfies its hint passes the check, whatever indices
    are sampled, and the decorated identity callable returns that very
    value. *)
Theorem satisfying_value_returned_unchanged :
  forall weakly_referenceable h pith g,
    satisfies h pith = true ->
    fst (check h pith g) = true
    /\ exists g',
         beartype weakly_referenceable h func_untyped pith g
         = (Passed pith, g').
Proof.
  intros weak h pith g Hsat.
  assert (Hnone : find_culprits h pith = None).
  { unfold satisfies in Hsat.
    destruct (find_culprits h pith); [discriminate | reflexivity]. }
  pose proof (satisfied_passes_check h pith Hnone) as Hpass.
  split; [apply Hpass|].
  unfold beartype, func_untyped.
  pose proof (Hpass g) as H1.
  destruct (check h pith g) as [ok_param g1]. simpl in H1. subst ok_param.
  pose proof (Hpass g1) as H2.
  destruct (check h pith g1) as [ok_return g2]. simpl in H2. subst ok_return.
  exists g2. reflexivity.
Qed.

(** The string [a] satisfies the union of [int] and the literal set of [a]
    and [b], and is returned. *)
Lemma satisfying_value_returned_unchanged_witness :
  satisfies (HintUnion [HintClass py_int; HintLiteral [PyStr "a"; PyStr "b"]])
    (PyStr "a") = true
  /\ fst (check (HintUnion [HintClass py_int;
                            HintLiteral [PyStr "a"; PyStr "b"]])
            (PyStr "a") []) = true
  /\ exists g',
       beartype sample_weakly_referenceable
         (HintUnion [HintClass py_int; HintLiteral [PyStr "a"; PyStr "b"]])
         func_untyped (PyStr "a") []
       = (Passed (PyStr "a"), g').
Proof.
  split; [reflexivity|].
  exact (satisfying_value_returned_unchanged sample_weakly_referenceable
           (HintUnion [HintClass py_int; HintLiteral [PyStr "a"; PyStr "b"]])
           (PyStr "a") [] eq_refl).
Defined.

(** The scenario of the specification: against the union of [int] and the
    literal set of [a] and [b], the values [5] and [a] pass and are returned,
    and [c] is rejected with itself as the only culprit, by its textual
    representation since a string cannot be referenced weakly; a list of a
    user-defined list class, which can, heads its culprits itself. *)
Example union_scenario :
  let h := HintUnion [HintClass py_int; HintLiteral [PyStr "a"; PyStr "b"]] in
  fst (beartype sample_weakly_referenceable h func_untyped (PyInt 5) [])
  = Passed (PyInt 5)
  /\ fst (beartype sample_weakly_referenceable h func_untyped (PyStr "a") [])
     = Passed (PyStr "a")
  /\ (exists v,
        fst (beartype sample_weakly_referenceable h func_untyped (PyStr "c") [])
        = Violated BeartypeCallHintParamViolation v
        /\ viol_culprits v = [PyStr "'c'"])
  /\ (exists v,
        fst (beartype sample_weakly_referenceable
               (HintSequence py_list (HintClass py_int)) func_untyped
               (PyInstance sample_list_subclass [PyInt 1; PyStr "a"]) [1])
        = Violated BeartypeCallHintParamViolation v
        /\ viol_culprits v
           = [PyInstance sample_list_subclass [PyInt 1; PyStr "a"];
              PyStr "'a'"]).
Proof.
  cbv zeta. split; [reflexivity|]. split; [reflexivity|].
  split; eexists; split; reflexivity.
Qed.

(** The sampled check is weaker than satisfaction: a list whose offending
    element is outside the sample passes the check without satisfying the
    hint, and the decorated callable then returns it or reports a violation
    of the return, depending on the indices drawn. *)
Example sampling_may_miss :
  let h := HintSequence py_list (HintClass py_int) in
  let pith := PyList [PyInt 1; PyStr "a"] in
  satisfies h pith = false
  /\ fst (check h pith [0]) = true
  /\ fst (beartype sample_weakly_referenceable h func_untyped pith [0; 0])
     = Passed pith
  /\ exists v,
       fst (beartype sample_weakly_referenceable h func_untyped pith [0; 1])
       = Violated BeartypeCallHintReturnViolation v
       /\ viol_culprits v = [PyStr "[1, 'a']"; PyStr "'a'"].
Proof.
  cbv zeta. split; [reflexivity|]. split; [reflexivity|].
  split; [reflexivity|]. eexists. split; reflexivity.
Qed.

(* ====================================================================== *)
(** * Further properties *)
(* ====================================================================== *)

(* ---------------------------------------------------------------------- *)
(** ** The MRO and the subclass test of [type] *)
(* ---------------------------------------------------------------------- *)

Lemma mem_class_dedup_last :
  forall x l, mem_class x (dedup_last l) = mem_class x l.
Proof.
  intros x l. induction l as [|y rest IH]; [reflexivity|].
  simpl. destruct (mem_class y rest) eqn:Ey.
  - rewrite IH. destruct (pyclass_eqb x y) eqn:Exy; [|reflexivity].
    apply pyclass_eqb_eq in Exy. subst y. simpl. exact Ey.
  - simpl. rewrite IH. reflexivity.
Qed.

Lemma In_mro_iff :
  forall x c,
    In x (mro c) <-> x = c \/ exists b, In b (cls_bases c) /\ In x (mro b).
Proof.
  intros x [n mo d bases m body]. simpl. split.
  - intros [E | Hin]; [left; symmetry; exact E|].
    right. apply mem_class_In in Hin. rewrite mem_class_dedup_last in Hin.
    apply mem_class_In in Hin. apply in_concat in Hin.
    destruct Hin as [l [Hl Hx]]. apply in_map_iff in Hl.
    destruct Hl as [b [<- Hb]]. exists b. split; assumption.
  - intros [E | [b [Hb Hx]]]; [left; symmetry; exact E|].
    right. apply mem_class_In. rewrite mem_class_dedup_last.
    apply mem_class_In. apply in_concat. exists (mro b).
    split; [apply in_map; exact Hb | exact Hx].
Qed.

Lemma in_mro_refl : forall c, in_mro c c = true.
Proof.
  intro c. apply mem_class_In. apply In_mro_iff. left. reflexivity.
Qed.

Lemma In_mro_trans :
  forall c a b, In a (mro b) -> In b (mro c) -> In a (mro c).
Proof.
  intro c.
  apply (@pyclass_nested_ind
           (fun c => forall a b, In a (mro b) -> In b (mro c) -> In a (mro c))
           (fun _ => True)); try exact I; try (intros; exact I).
  intros n mo d bases m body IHbases _ _ a b Hab Hbc.
  apply In_mro_iff in Hbc. destruct Hbc as [-> | [k [Hk Hbk]]];
    [exact Hab|].
  apply In_mro_iff. right. exists k. split; [exact Hk|].
  simpl in Hk.
  exact (proj1 (Forall_forall _ _) IHbases k Hk a b Hab Hbk).
Qed.

Lemma In_mro_smaller :
  forall c x, In x (mro c) -> x = c \/ ancestry_size x < ancestry_size c.
Proof.
  intro c.
  apply (@pyclass_nested_ind
           (fun c => forall x, In x (mro c) ->
                               x = c \/ ancestry_size x < ancestry_size c)
           (fun _ => True)); try exact I; try (intros; exact I).
  intros n mo d bases m body IHbases _ _ x Hx.
  apply In_mro_iff in Hx. destruct Hx as [-> | [k [Hk Hxk]]];
    [left; reflexivity|].
  right. simpl in Hk.
  assert (Hle : ancestry_size x <= ancestry_size k).
  { destruct (proj1 (Forall_forall _ _) IHbases k Hk x Hxk) as [-> | Hlt];
      lia. }
  assert (Hsum : ancestry_size k <=
                 (fix sum (l : list pyclass) : nat :=
                    match l with
                    | [] => 0
                    | b :: rest => ancestry_size b + sum rest
                    end) bases).
  { clear - Hk. induction bases as [|b rest IH]; [contradiction|].
    destruct Hk as [-> | Hk]; [lia|]. specialize (IH Hk). lia. }
  simpl. lia.
Qed.

Lemma is_object_subclass_standard :
  forall s c, keeps_type_subclasscheck c ->
    is_object_subclass (PyClass s) (PyClass c) = Return (in_mro c s).
Proof.
  intros s c Hc. unfold is_object_subclass, issubclass. simpl.
  unfold keeps_type_subclasscheck in Hc. rewrite Hc. reflexivity.
Qed.

(** X1.  On classes whose metaclass keeps the subclass check of [type],
    [is_object_subclass] is a partial order: every class is a subclass of
    itself; a subclass of a subclass is a subclass, whatever the first
    object is; and two classes that are subclasses of each other are the
    same class. *)
Theorem is_object_subclass_partial_order :
  (forall c, keeps_type_subclasscheck c ->
     is_object_subclass (PyClass c) (PyClass c) = Return true)
  /\ (forall obj b c,
        keeps_type_subclasscheck b -> keeps_type_subclasscheck c ->
        is_object_subclass obj (PyClass b) = Return true ->
        is_object_subclass (PyClass b) (PyClass c) = Return true ->
        is_object_subclass obj (PyClass c) = Return true)
  /\ (forall a b,
        keeps_type_subclasscheck a -> keeps_type_subclasscheck b ->
        is_object_subclass (PyClass a) (PyClass b) = Return true ->
        is_object_subclass (PyClass b) (PyClass a) = Return true ->
        a = b).
Proof.
  split; [|split].
  - intros c Hc. rewrite (is_object_subclass_standard c c Hc).
    rewrite in_mro_refl. reflexivity.
  - intros obj b c Hb Hc Hob Hbc.
    destruct obj as [| | | | | a |]; try (simpl in Hob; discriminate).
    rewrite (is_object_subclass_standard a b Hb) in Hob.
    rewrite (is_object_subclass_standard b c Hc) in Hbc.
    rewrite (is_object_subclass_standard a c Hc). f_equal.
    injection Hob as Hob. injection Hbc as Hbc.
    apply mem_class_In. apply mem_class_In in Hob, Hbc.
    exact (In_mro_trans a c b Hbc Hob).
  - intros a b Ha Hb Hab Hba.
    rewrite (is_object_subclass_standard a b Hb) in Hab.
    rewrite (is_object_subclass_standard b a Ha) in Hba.
    injection Hab as Hab. injection Hba as Hba.
    apply mem_class_In in Hab, Hba.
    destruct (In_mro_smaller a b Hab) as [E | H1]; [symmetry; exact E|].
    destruct (In_mro_smaller b a Hba) as [E | H2]; [exact E | lia].
Qed.

(** The order at classes of the exception hierarchy: a violation of a
    parameter is a call-time exception, through [BeartypeCallHintViolation]. *)
Lemma is_object_subclass_partial_order_witness :
  is_object_subclass (PyClass BeartypeCallHintParamViolation)
    (PyClass BeartypeCallHintParamViolation) = Return true
  /\ is_object_subclass (PyClass BeartypeCallHintParamViolation)
       (PyClass BeartypeCallException) = Return true.
Proof.
  split.
  - apply (proj1 is_object_subclass_partial_order). reflexivity.
  - apply (proj1 (proj2 is_object_subclass_partial_order)
             (PyClass BeartypeCallHintParamViolation)
             BeartypeCallHintViolation BeartypeCallException);
      reflexivity.
Defined.

(* ---------------------------------------------------------------------- *)
(** ** beartype/_util/utilobject.py: names and hashability *)
(* ---------------------------------------------------------------------- *)

(** X2.  [get_object_class_basename] raises for no object, not even for
    one without [__name__]: it returns the name of the object when the
    object is a class and the name of its class otherwise, so an instance
    and its class get the same name, and normalising the argument with
    [get_object_class_unless_class] first changes nothing. *)
Theorem get_object_class_basename_never_raises :
  forall obj,
    get_object_class_basename obj
    = Return (cls_name match obj with
                       | PyClass c => c
                       | _ => class_of obj
                       end)
    /\ get_object_class_basename (builtin_type obj)
       = Return (cls_name (class_of obj))
    /\ get_object_class_basename (get_object_class_unless_class obj)
       = get_object_class_basename obj
    /\ (isinstance_type obj = false ->
        (exists exc, getattr___name__ obj = Raise exc)
        /\ get_object_class_basename obj
           = get_object_class_basename (builtin_type obj)).
Proof.
  intro obj. unfold get_object_class_basename.
  split; [|split; [|split]].
  - destruct obj; reflexivity.
  - reflexivity.
  - destruct obj; reflexivity.
  - intro Hobj. split.
    + destruct obj; try discriminate; eexists; reflexivity.
    + destruct obj; try discriminate; reflexivity.
Qed.

(** X3.  [get_object_classname] raises for no object: it returns the
    basename [get_object_class_basename] gives, prefixed by the module name
    the getter gives for the class of the object and a dot when there is
    one; so an instance and its class get the same name, and the name of a
    class is that of the class itself, not of its metaclass. *)
Theorem get_object_classname_never_raises :
  forall get_object_class_module_name_or_none obj,
    (exists basename,
       get_object_class_basename obj = Return basename
       /\ get_object_classname get_object_class_module_name_or_none obj
          = Return
              match get_object_class_module_name_or_none
                      (get_object_class_unless_class obj) with
              | Some module_name => (module_name ++ "." ++ basename)%string
              | None => basename
              end)
    /\ get_object_classname get_object_class_module_name_or_none
         (get_object_class_unless_class obj)
       = get_object_classname get_object_class_module_name_or_none obj
    /\ (forall c state,
          get_object_classname get_object_class_module_name_or_none
            (PyInstance c state)
          = get_object_classname get_object_class_module_name_or_none
              (PyClass c)).
Proof.
  intros getter obj. unfold get_object_classname, get_object_class_basename.
  assert (Hidem : get_object_class_unless_class
                    (get_object_class_unless_class obj)
                  = get_object_class_unless_class obj)
    by (destruct obj; reflexivity).
  rewrite !Hidem. split; [|split].
  - destruct obj; eexists; split; reflexivity.
  - reflexivity.
  - intros c state. reflexivity.
Qed.

(** X4.  What [get_object_name] returns for every argument is the name
    [get_object_classname] gives for the builtin class [object], and for a
    bare instance of it. *)
Theorem get_object_name_is_classname_of_object :
  forall get_object_class_module_name_or_none obj,
    get_object_name get_object_class_module_name_or_none obj
    = get_object_classname get_object_class_module_name_or_none
        (PyClass py_object)
    /\ get_object_name get_object_class_module_name_or_none obj
       = get_object_classname get_object_class_module_name_or_none
           (PyInstance py_object []).
Proof.
  intros getter obj. split; reflexivity.
Qed.

Section is_object_hashable_properties.

Variable builtin_hash : pyobj -> outcome Z.

(** X5.  [is_object_hashable] returns [True] exactly when [hash] returns,
    and [False] exactly when [hash] raises an exception whose class derives
    from [Exception]; an exception of another class, which [except
    Exception] does not catch, is raised by [is_object_hashable] itself, and
    nothing else is. *)
Theorem is_object_hashable_outcomes :
  forall obj,
    (is_object_hashable builtin_hash obj = Return true
     <-> exists h, builtin_hash obj = Return h)
    /\ (is_object_hashable builtin_hash obj = Return false
        <-> exists exc, builtin_hash obj = Raise exc
                        /\ in_mro py_Exception (class_of exc) = true)
    /\ (forall exc,
          is_object_hashable builtin_hash obj = Raise exc
          <-> builtin_hash obj = Raise exc
              /\ in_mro py_Exception (class_of exc) = false).
Proof.
  intro obj. unfold is_object_hashable.
  destruct (builtin_hash obj) as [h | raised] eqn:Eh.
  - split; [|split].
    + split; [intros _; exists h; reflexivity | reflexivity].
    + split; [discriminate | intros [exc [H _]]; discriminate].
    + intro exc. split; [discriminate | intros [H _]; discriminate].
  - destruct (in_mro py_Exception (class_of raised)) eqn:Ecaught.
    + split; [|split].
      * split; [discriminate | intros [h H]; discriminate].
      * split; [intros _; exists raised; split; [reflexivity | exact Ecaught]
               | reflexivity].
      * intro exc. split; [discriminate|].
        intros [H Hnot]. injection H as <-. congruence.
    + split; [|split].
      * split; [discriminate | intros [h H]; discriminate].
      * split; [discriminate|].
        intros [exc [H Hc]]. injection H as <-. congruence.
      * intro exc. split.
        -- intro H. injection H as <-. split; [reflexivity | exact Ecaught].
        -- intros [H _]. injection H as <-. reflexivity.
Qed.

End is_object_hashable_properties.

(** The objects of the comments of [is_object_hashable]: a list and an
    instance whose [__hash__] raises [ValueError] are unhashable, a tuple of
    hashable items is hashable and one holding a list is not; an instance
    whose [__hash__] raises [KeyboardInterrupt] makes the tester raise. *)
Example is_object_hashable_samples :
  is_object_hashable sample_hash (PyList []) = Return false
  /\ is_object_hashable sample_hash (PyInstance HashUmUp []) = Return false
  /\ is_object_hashable sample_hash (PyTuple [PyInt 1; PyStr "a"])
     = Return true
  /\ is_object_hashable sample_hash (PyTuple [PyInt 1; PyList []])
     = Return false
  /\ is_object_hashable sample_hash SENTINEL = Return true
  /\ is_object_hashable sample_hash (PyInstance sample_interrupted_hash [])
     = Raise (PyInstance py_KeyboardInterrupt []).
Proof.
  repeat (split; [vm_compute; reflexivity|]). vm_compute. reflexivity.
Qed.

(* ---------------------------------------------------------------------- *)
(** ** beartype/roar/_roarexc.py: construction and the shape of the tree *)
(* ---------------------------------------------------------------------- *)

(** X6.  Every class of the module takes exactly one argument, the
    message: called with none or with several (a message and culprits, say)
    it raises a [TypeError], and no [__module__] is rebound. *)
Theorem roarexc_call_needs_one_message :
  forall c args st,
    In c roarexc_classes -> List.length args <> 1 ->
    exists exc,
      call_class c args st = (Raise exc, st)
      /\ class_of exc = py_TypeError.
Proof.
  intros c args st Hin Hlen.
  pose proof (roarexc_class_ok_In c Hin) as H. split_ok H.
  unfold call_class, bind, lift, class_new.
  match goal with
  | E : in_mro py_BaseException c = true |- _ => rewrite E
  end.
  destruct (class_getattr c "__init__") as [[owner [| | |]]|];
    try discriminate.
  match goal with
  | E : pyclass_eqb owner BeartypeException = true |- _ => rewrite E
  end.
  destruct args as [|message [|second rest]].
  - eexists. split; reflexivity.
  - exfalso. apply Hlen. reflexivity.
  - eexists. split; reflexivity.
Qed.

Lemma roarexc_call_needs_one_message_witness :
  In BeartypeCallHintParamViolation roarexc_classes
  /\ List.length [PyStr "message"; PyTuple [PyInt 0]] <> 1
  /\ exists exc,
       call_class BeartypeCallHintParamViolation
         [PyStr "message"; PyTuple [PyInt 0]] []
       = (Raise exc, [])
       /\ class_of exc = py_TypeError.
Proof.
  assert (Hin : In BeartypeCallHintParamViolation roarexc_classes)
    by (apply mem_class_In; vm_compute; reflexivity).
  assert (Hlen : List.length [PyStr "message"; PyTuple [PyInt 0]] <> 1)
    by discriminate.
  split; [exact Hin|]. split; [exact Hlen|].
  exact (roarexc_call_needs_one_message BeartypeCallHintParamViolation
           [PyStr "message"; PyTuple [PyInt 0]] [] Hin Hlen).
Defined.

Lemma rebound_module_other :
  forall c d m st, c <> d ->
    getattr___module__ d ((c, m) :: st) = getattr___module__ d st.
Proof.
  intros c d m st Hne. unfold getattr___module__. simpl.
  destruct (pyclass_eqb d c) eqn:E; [|reflexivity].
  apply pyclass_eqb_eq in E. congruence.
Qed.

(** X7.  Constructing an exception sanitises the module name of its own
    class and of no other: before any construction every class of the module
    has the module name [beartype.roar._roarexc]; after the construction of
    an instance of [c] every other class, the bases and subclasses of [c]
    included, has the module name it had; and constructing a second instance
    changes no module name. *)
Theorem roarexc_call_rebinds_own_module_only :
  forall c message st,
    In c roarexc_classes ->
    getattr___module__ c [] = "beartype.roar._roarexc"
    /\ (forall d, d <> c ->
          getattr___module__ d (snd (call_class c [message] st))
          = getattr___module__ d st)
    /\ (forall d message',
          getattr___module__ d
            (snd (call_class c [message']
                    (snd (call_class c [message] st))))
          = getattr___module__ d (snd (call_class c [message] st))).
Proof.
  intros c message st Hin. split; [|split].
  - assert (H : forallb (fun k => String.eqb (cls_module k)
                                    "beartype.roar._roarexc")
                  roarexc_classes = true) by (vm_compute; reflexivity).
    apply String.eqb_eq.
    exact (proj1 (forallb_forall _ _) H c Hin).
  - intros d Hne. rewrite (call_class_roarexc c Hin). simpl.
    apply rebound_module_other. congruence.
  - intros d message'. rewrite !(call_class_roarexc c Hin). simpl.
    unfold getattr___module__. simpl.
    destruct (pyclass_eqb d c); reflexivity.
Qed.

Lemma roarexc_call_rebinds_own_module_only_witness :
  In BeartypeCallHintParamViolation roarexc_classes
  /\ getattr___module__ BeartypeCallHintViolation
       (snd (call_class BeartypeCallHintParamViolation [PyStr "message"] []))
     = "beartype.roar._roarexc".
Proof.
  assert (Hin : In BeartypeCallHintParamViolation roarexc_classes)
    by (apply mem_class_In; vm_compute; reflexivity).
  split; [exact Hin|].
  rewrite (proj1 (proj2 (roarexc_call_rebinds_own_module_only
                           BeartypeCallHintParamViolation (PyStr "message")
                           [] Hin))
             BeartypeCallHintViolation);
    [reflexivity | discriminate].
Defined.

Lemma roarexc_names_checked :
  forallb
    (fun c =>
       Bool.eqb (is_private c)
         (in_mro _BeartypeUtilException c
          || pyclass_eqb c _BeartypeDecorBeartypistryException)
       && forallb (fun a => implb (is_private a) (is_private c))
            (filter (fun a => mem_class a roarexc_classes) (mro c))
       && implb (in_mro BeartypeCallHintViolation c) (negb (is_private c)))
    roarexc_classes = true.
Proof. vm_compute. reflexivity. Qed.

(** X8.  Private and public names in the hierarchy.  The classes with a
    private name are the subclasses of [_BeartypeUtilException] and
    [_BeartypeDecorBeartypistryException]; no class with a public name
    derives from a class with a private name; and every subclass of
    [BeartypeCallHintViolation], the kind the decorated callable raises, has
    a public name. *)
Theorem roarexc_private_names :
  forall c, In c roarexc_classes ->
    (is_private c = true
     <-> in_mro _BeartypeUtilException c = true
         \/ c = _BeartypeDecorBeartypistryException)
    /\ (forall a, In a roarexc_classes -> in_mro a c = true ->
                  is_private a = true -> is_private c = true)
    /\ (in_mro BeartypeCallHintViolation c = true -> is_private c = false).
Proof.
  intros c Hin.
  pose proof (proj1 (forallb_forall _ _) roarexc_names_checked c Hin) as H.
  simpl in H. apply andb_prop in H. destruct H as [H Hviol].
  apply andb_prop in H. destruct H as [Hpriv Hanc].
  apply Bool.eqb_prop in Hpriv. split; [|split].
  - rewrite Hpriv. rewrite orb_true_iff. rewrite pyclass_eqb_eq. tauto.
  - intros a Ha Hac Hpa.
    assert (Hf : In a (filter (fun a => mem_class a roarexc_classes) (mro c))).
    { apply filter_In. split.
      - apply mem_class_In. exact Hac.
      - apply mem_class_In. exact Ha. }
    pose proof (proj1 (forallb_forall _ _) Hanc a Hf) as Himp.
    cbv beta in Himp. rewrite Hpa in Himp. exact Himp.
  - intro Hv. rewrite Hv in Hviol. simpl in Hviol.
    apply negb_true_iff. exact Hviol.
Qed.

Lemma roarexc_private_names_witness :
  In _BeartypeCallHintPepRaiseDesynchronizationException roarexc_classes
  /\ is_private _BeartypeCallHintPepRaiseDesynchronizationException = true.
Proof.
  assert (Hin : In _BeartypeCallHintPepRaiseDesynchronizationException
                  roarexc_classes)
    by (apply mem_class_In; vm_compute; reflexivity).
  split; [exact Hin|].
  apply (proj1 (roarexc_private_names _ Hin)). left. reflexivity.
Defined.

Lemma roarexc_abstract_checked :
  forallb
    (fun c =>
       implb (documented_abstract c) (negb (is_leaf c))
       && Bool.eqb (negb (is_leaf c) && negb (documented_abstract c))
            (mem_class c [BeartypeDecorHintNonpepException;
                          _BeartypeCallHintPepRaiseException]))
    roarexc_classes = true.
Proof. vm_compute. reflexivity. Qed.

(** X9.  Documented abstractness against the shape of the tree: every
    class documented as an abstract base class has a subclass in the module,
    and the classes that have subclasses without being documented as
    abstract are exactly [BeartypeDecorHintNonpepException] and
    [_BeartypeCallHintPepRaiseException]. *)
Theorem roarexc_abstract_classes_have_subclasses :
  forall c, In c roarexc_classes ->
    (documented_abstract c = true ->
     exists d, In d roarexc_classes /\ In c (cls_bases d))
    /\ ((exists d, In d roarexc_classes /\ In c (cls_bases d))
        /\ documented_abstract c = false
        <-> c = BeartypeDecorHintNonpepException
            \/ c = _BeartypeCallHintPepRaiseException).
Proof.
  intros c Hin.
  assert (Hleaf : is_leaf c = false <->
                  exists d, In d roarexc_classes /\ In c (cls_bases d)).
  { unfold is_leaf. rewrite negb_false_iff, existsb_exists.
    split; intros [d [Hd Hc]]; exists d; (split; [exact Hd|]);
      apply mem_class_In; exact Hc. }
  pose proof (proj1 (forallb_forall _ _) roarexc_abstract_checked c Hin) as H.
  cbv beta in H. apply andb_prop in H. destruct H as [Habs Hrest].
  apply Bool.eqb_prop in Hrest. split.
  - intro Hdoc. apply Hleaf. rewrite Hdoc in Habs. simpl in Habs.
    apply negb_true_iff. exact Habs.
  - rewrite <- Hleaf.
    assert (Hmem : mem_class c [BeartypeDecorHintNonpepException;
                                _BeartypeCallHintPepRaiseException] = true
                   <-> c = BeartypeDecorHintNonpepException
                       \/ c = _BeartypeCallHintPepRaiseException).
    { rewrite mem_class_In. simpl. intuition. }
    rewrite <- Hmem, <- Hrest.
    rewrite andb_true_iff, !negb_true_iff. tauto.
Qed.

Lemma roarexc_abstract_classes_have_subclasses_witness :
  In BeartypeCallHintViolation roarexc_classes
  /\ exists d, In d roarexc_classes
               /\ In BeartypeCallHintViolation (cls_bases d).
Proof.
  assert (Hin : In BeartypeCallHintViolation roarexc_classes)
    by (apply mem_class_In; vm_compute; reflexivity).
  split; [exact Hin|].
  exact (proj1 (roarexc_abstract_classes_have_subclasses _ Hin) eq_refl).
Defined.

(* ---------------------------------------------------------------------- *)
(** ** beartype/_util/hint/utilhintget.py: origins of origins *)
(* ---------------------------------------------------------------------- *)

Section utilhintget_fixed_points.

Variable is_hint_pep_typing : pyobj -> bool.
Variable TYPING_ATTR_TO_TYPE_ORIGIN : pyobj -> option pyclass.
Variable builtin_repr : pyobj -> outcome string.

Local Abbreviation origin_or_none :=
  (get_hint_type_origin_or_none is_hint_pep_typing
     TYPING_ATTR_TO_TYPE_ORIGIN).
Local Abbreviation origin :=
  (get_hint_type_origin is_hint_pep_typing TYPING_ATTR_TO_TYPE_ORIGIN
     builtin_repr).

(** X10.  An origin that is not itself a [typing] attribute is its own
    origin: applying [get_hint_type_origin_or_none] to its result gives that
    result again, and when [get_hint_type_origin] returns a class for a
    hint, it returns that class for that class, rebinding nothing. *)
Theorem origin_of_origin :
  forall hint,
    is_hint_pep_typing (origin_or_none hint) = false ->
    origin_or_none (origin_or_none hint) = origin_or_none hint
    /\ forall st T st',
         origin hint st = (Return T, st') ->
         T = origin_or_none hint /\ st' = st
         /\ origin T st = (Return T, st).
Proof.
  intros hint Hnot.
  assert (Hfix : origin_or_none (origin_or_none hint) = origin_or_none hint).
  { destruct (get_hint_type_origin_or_none_class_or_None is_hint_pep_typing
                TYPING_ATTR_TO_TYPE_ORIGIN hint) as [E | [c E]];
      rewrite E in *; unfold get_hint_type_origin_or_none at 1;
      rewrite Hnot; reflexivity. }
  split; [exact Hfix|].
  intros st T st' Hrun.
  assert (Hin : In BeartypeDecorHintException roarexc_classes)
    by (apply mem_class_In; vm_compute; reflexivity).
  unfold get_hint_type_origin in Hrun.
  destruct (get_hint_type_origin_or_none_class_or_None is_hint_pep_typing
              TYPING_ATTR_TO_TYPE_ORIGIN hint) as [E | [c E]].
  - rewrite E in Hrun. simpl in Hrun. unfold bind, lift in Hrun.
    destruct (builtin_repr hint); [|discriminate].
    rewrite (call_class_roarexc _ Hin) in Hrun. discriminate.
  - rewrite E in Hrun. simpl in Hrun. unfold ret in Hrun.
    injection Hrun as <- <-.
    split; [symmetry; exact E|]. split; [reflexivity|].
    unfold get_hint_type_origin. rewrite <- E, Hfix, E. reflexivity.
Qed.

End utilhintget_fixed_points.

(** [list], the origin of [typing.List], is its own origin. *)
Lemma origin_of_origin_witness :
  sample_is_hint_pep_typing
    (get_hint_type_origin_or_none sample_is_hint_pep_typing
       sample_TYPING_ATTR_TO_TYPE_ORIGIN (PyClass typing_List)) = false
  /\ get_hint_type_origin_or_none sample_is_hint_pep_typing
       sample_TYPING_ATTR_TO_TYPE_ORIGIN (PyClass py_list)
     = PyClass py_list.
Proof.
  split; [reflexivity|].
  exact (proj1 (origin_of_origin sample_is_hint_pep_typing
                  sample_TYPING_ATTR_TO_TYPE_ORIGIN sample_repr
                  (PyClass typing_List) eq_refl)).
Defined.

(* ---------------------------------------------------------------------- *)
(** ** beartype/roar/_roarexc.py: handlers never overlap by accident *)
(* ---------------------------------------------------------------------- *)

Lemma roarexc_chains_checked :
  forallb
    (fun c =>
       forallb (fun a => forallb (fun b => in_mro a b || in_mro b a) (mro c))
         (mro c))
    roarexc_classes = true.
Proof. vm_compute. reflexivity. Qed.

(** X11.  The ancestors of a class of the module form a chain: two classes
    have a common subclass in the module only when one of them is a subclass
    of the other.  So two [except] clauses for classes neither of which
    derives from the other never catch the same exception of the module. *)
Theorem roarexc_ancestors_form_a_chain :
  forall c a b,
    In c roarexc_classes ->
    issubclass (PyClass c) (PyClass a) = Return true ->
    issubclass (PyClass c) (PyClass b) = Return true ->
    In a roarexc_classes -> In b roarexc_classes ->
    issubclass (PyClass a) (PyClass b) = Return true
    \/ issubclass (PyClass b) (PyClass a) = Return true.
Proof.
  intros c a b Hc Hca Hcb Ha Hb.
  rewrite (issubclass_roarexc _ _ Ha) in Hca.
  rewrite (issubclass_roarexc _ _ Hb) in Hcb.
  rewrite (issubclass_roarexc _ _ Ha), (issubclass_roarexc _ _ Hb).
  injection Hca as Hca. injection Hcb as Hcb.
  apply mem_class_In in Hca, Hcb.
  pose proof (proj1 (forallb_forall _ _) roarexc_chains_checked c Hc) as H.
  cbv beta in H.
  pose proof (proj1 (forallb_forall _ _) H a Hca) as H'. cbv beta in H'.
  pose proof (proj1 (forallb_forall _ _) H' b Hcb) as H''. cbv beta in H''.
  apply orb_prop in H''. destruct H'' as [E | E]; rewrite E; auto.
Qed.

Lemma roarexc_ancestors_form_a_chain_witness :
  issubclass (PyClass BeartypeCallHintParamViolation)
    (PyClass BeartypeCallHintViolation) = Return true
  /\ issubclass (PyClass BeartypeCallHintParamViolation)
       (PyClass BeartypeCallException) = Return true
  /\ (issubclass (PyClass BeartypeCallHintViolation)
        (PyClass BeartypeCallException) = Return true
      \/ issubclass (PyClass BeartypeCallException)
           (PyClass BeartypeCallHintViolation) = Return true).
Proof.
  split; [reflexivity|]. split; [reflexivity|].
  apply (roarexc_ancestors_form_a_chain
           BeartypeCallHintParamViolation BeartypeCallHintViolation
           BeartypeCallException);
    solve [reflexivity | apply mem_class_In; vm_compute; reflexivity].
Defined.
